(** * simulab: the final-grid heatmap plotter

  A shallow embedding of [simulab/simulation/plotters/final_grid.py]
  (class [FinalGridSeries]) and the properties of its tick metadata,
  colour range, row titles and figure configuration.

  Conventions of the embedding:
  - Python [int] is [Z]; lattice cells are integers (agent types, or
    agent type and state packed into one integer).
  - Python exceptions are the [Raise] branch of [result].
  - The colour-bar ticks are IEEE 754 binary64 values, computed and
    printed as numpy and Python do ([F64]). The tick values of the
    metadata are stated in exact arithmetic: [Py.linspace] gives the
    points as rationals [Q], kept in reduced form. *)

From Stdlib Require Import QArith Qround Qabs Lqa.
From Stdlib Require SpecFloat FloatOps.
From stdpp Require Import gmap strings list pretty.

Open Scope Z_scope.

(** ** The Python fragment the plotter relies on *)

Module Py.

Inductive exn : Set :=
| KeyError | IndexError | ValueError | AttributeError
| UnboundLocalError | ZeroDivisionError | OverflowError.

Inductive result (A : Type) : Type :=
| Ok (a : A)
| Raise (e : exn).
Global Arguments Ok {A} a.
Global Arguments Raise {A} e.

Global Instance result_ret : MRet result := λ A a, Ok a.
Global Instance result_bind : MBind result := λ A B f m,
  match m with Ok a => f a | Raise e => Raise e end.

(** [len(l)] *)
Definition len {A} (l : list A) : Z := Z.of_nat (length l).

(** [l[i]] on a list: negative indices count from the end. *)
Definition getitem_list {A} (l : list A) (i : Z) : result A :=
  let j := if i <? 0 then len l + i else i in
  if j <? 0 then Raise IndexError
  else match l !! Z.to_nat j with
       | Some a => Ok a
       | None => Raise IndexError
       end.

(** [d[k]] on a dict. *)
Definition getitem_dict `{Countable K} {V} (d : gmap K V) (k : K) : result V :=
  match d !! k with
  | Some v => Ok v
  | None => Raise KeyError
  end.

(** [min(l)] and [max(l)] on a list of integers. *)
Definition min (l : list Z) : result Z :=
  match l with
  | [] => Raise ValueError
  | x :: l' => Ok (foldl Z.min x l')
  end.

Definition max (l : list Z) : result Z :=
  match l with
  | [] => Raise ValueError
  | x :: l' => Ok (foldl Z.max x l')
  end.

(** [list(range(n))] *)
Definition range (n : Z) : list Z := seqZ 0 n.

(** [a % b] and [a // b]: floor semantics, as [Z.modulo] and [Z.div]. *)
Definition mod_ (a b : Z) : result Z :=
  if b =? 0 then Raise ZeroDivisionError else Ok (a `mod` b).

Definition floordiv (a b : Z) : result Z :=
  if b =? 0 then Raise ZeroDivisionError else Ok (a `div` b).

(** [list(range(start, stop))] *)
Definition range_from (start stop : Z) : list Z := seqZ start (stop - start).

(** [for a in l: s = body(s, a)], stopping at the first exception. *)
Fixpoint for_each {A S} (body : S → A → result S) (l : list A) (s : S) : result S :=
  match l with
  | [] => Ok s
  | a :: l' => s' ← body s a; for_each body l' s'
  end.

(** [sum(ll, [])] *)
Definition sum_lists {A} (ll : list (list A)) : list A := concat ll.

(** [sep.join(l)] *)
Definition join (sep : string) (l : list string) : string :=
  String.concat sep l.

(** [enumerate(l, start)] *)
Fixpoint enumerate {A} (l : list A) (start : Z) : list (Z * A) :=
  match l with
  | [] => []
  | a :: l' => (start, a) :: enumerate l' (start + 1)
  end.

(** A list comprehension whose element expression may raise. *)
Fixpoint comprehension {A B} (f : A → result B) (l : list A) : result (list B) :=
  match l with
  | [] => Ok []
  | a :: l' => b ← f a; bs ← comprehension f l'; Ok (b :: bs)
  end.

(** Numbers: [int] or [float]. *)
Inductive num : Set :=
| Int (z : Z)
| Float (q : Q).

Definition num_to_Q (n : num) : Q :=
  match n with Int z => inject_Z z | Float q => q end.

(** [a == b] on numbers (an int equals the float of the same value). *)
Definition num_eqb (a b : num) : bool := Qeq_bool (num_to_Q a) (num_to_Q b).

(** A dict with numeric keys, in insertion order. *)
Definition dict (V : Type) : Type := list (num * V).

(** [d[k] = v]: an existing key keeps its place and gets the new value. *)
Fixpoint setitem {V} (d : dict V) (k : num) (v : V) : dict V :=
  match d with
  | [] => [(k, v)]
  | (k', v') :: d' =>
      if num_eqb k' k then (k', v) :: d' else (k', v') :: setitem d' k v
  end.

Fixpoint getitem {V} (d : dict V) (k : num) : result V :=
  match d with
  | [] => Raise KeyError
  | (k', v') :: d' => if num_eqb k' k then Ok v' else getitem d' k
  end.

(** [{key(i): val(i) for i in l}], filling the dict [d] in the order of
    [l]. *)
Fixpoint dict_comprehension_from {A V} (d : dict V) (key : A → num)
    (val : A → result V) (l : list A) : result (dict V) :=
  match l with
  | [] => Ok d
  | i :: l' => v ← val i; dict_comprehension_from (setitem d (key i) v) key val l'
  end.

Definition dict_comprehension {A V} (key : A → num) (val : A → result V)
    (l : list A) : result (dict V) :=
  dict_comprehension_from [] key val l.

(** [np.linspace(start, stop, num)] with the endpoint included, in exact
    arithmetic: the evenly spaced points the tick values of the metadata
    stand for. The figure reads only how many of them there are; the
    ticks it shows are computed in float64, by [F64.linspace]. *)
Definition linspace (start stop : Q) (n : nat) : list Q :=
  match n with
  | O => []
  | S O => [Qred start]
  | S (S _ as div) =>
      let step := ((stop - start) / inject_Z (Z.of_nat div))%Q in
      (λ i : nat, Qred (start + inject_Z (Z.of_nat i) * step)%Q) <$> seq 0 n
  end.

(** The text of [val] with one decimal, as [f"{val:.1f}"] prints a value
    that is not zero: the decimal with one fractional digit nearest to
    [val], ties to the even digit; the sign is that of [val], also when
    the digits are all zero. *)
Definition round_half_even (q : Q) : Z :=
  let fl := Qfloor q in
  match (q - inject_Z fl ?= 1 # 2)%Q with
  | Lt => fl
  | Gt => fl + 1
  | Eq => if Z.even fl then fl else fl + 1
  end.

Definition format_1f (val : Q) : string :=
  let tenths := round_half_even (Qabs val * inject_Z 10)%Q in
  (if Qle_bool 0 val then "" else "-")
    +:+ pretty (tenths `div` 10) +:+ "." +:+ pretty (tenths `mod` 10).

(** What the interpreter fixes and the program does not: the order in
    which a [set] of strings is iterated (some order without repeats) and
    the text [str(x)] of a float. *)
Class Runtime := {
  set_iter : gset string → list string;
  set_iter_perm : ∀ X, set_iter X ≡ₚ elements X;
  float_str : Q → string;
}.

End Py.

Import Py.

(** ** float64

    The numbers [np.linspace] and the f-string formatter work on: IEEE 754
    binary64 data and their correctly rounded operations, as the
    specification of the standard library defines them. *)

Module F64.
Import SpecFloat FloatOps.

Definition float : Set := spec_float.

Definition add : float → float → float := SFadd prec emax.
Definition sub : float → float → float := SFsub prec emax.
Definition mul : float → float → float := SFmul prec emax.
Definition div : float → float → float := SFdiv prec emax.

(** [float(i)] for the index [i] of an array. *)
Definition of_index (i : nat) : float :=
  binary_normalize prec emax (Z.of_nat i) 0 false.

(** [z * 1.0] on an [int]: the nearest float64, ties to even; an [int]
    too large for a float64 raises. *)
Definition of_int (z : Z) : result float :=
  match binary_normalize prec emax z 0 false with
  | S754_infinity _ => Raise OverflowError
  | x => Ok x
  end.

(** [x == 0] *)
Definition is_zero (x : float) : bool := SFeqb x (S754_zero false).

(** [np.linspace(start, stop, num)] with the endpoint included:
    [arange(0, num) * step + start] with [step = (stop - start) / (num - 1)]
    (or [arange(0, num) / (num - 1) * (stop - start) + start] when the
    step is zero), and the last point set to [stop]. *)
Definition linspace (start stop : float) (num : nat) : list float :=
  let div_ := (num - 1)%nat in
  let delta := sub stop start in
  let y := of_index <$> seq 0 num in
  let y :=
    if (0 <? div_)%nat then
      let step := div delta (of_index div_) in
      if is_zero step then (λ v, mul (div v (of_index div_)) delta) <$> y
      else (λ v, mul v step) <$> y
    else (λ v, mul v delta) <$> y in
  let y := (λ v, add v start) <$> y in
  if (1 <? num)%nat then <[div_ := stop]> y else y.

(** [np.linspace(start, stop, num)] on two [int]s. *)
Definition linspace_int (start stop : Z) (num : nat) : result (list float) :=
  start ← of_int start;
  stop ← of_int stop;
  Ok (linspace start stop num).

(** The sign bit, as the text in front of the digits. *)
Definition sign (s : bool) : string := if s then "-" else "".

(** The exact value of a finite float (0 for the others). *)
Definition to_Q (x : float) : Q :=
  match x with
  | S754_finite s m e =>
      let n := if s then Z.neg m else Z.pos m in
      if 0 <=? e then inject_Z (n * 2 ^ e) else n # (2 ^ Z.to_pos (- e))
  | _ => 0%Q
  end.

(** [f"{x:.1f}"] *)
Definition format_1f (x : float) : string :=
  match x with
  | S754_nan => "nan"
  | S754_infinity s => sign s +:+ "inf"
  | S754_zero s => sign s +:+ "0.0"
  | S754_finite _ _ _ => Py.format_1f (to_Q x)
  end.

End F64.

(** ** Data model: what the plotter reads from its [Runner] *)

(** A lattice snapshot: rows of cells. *)
Abbreviation Lattice := (list (list Z)).

(** The value of an experiment attribute, as [getattr] returns it. *)
Inductive Value : Set :=
| VInt (z : Z)
| VStr (s : string).

(** [str(v)], the text an f-string puts in place of [{v}]. *)
Definition str (v : Value) : string :=
  match v with
  | VInt z => pretty z
  | VStr s => s
  end.

(** Modelled from the spec: the experiment class of
    [simulab.simulation.core], which is not among the sources. An
    experiment has an agent-type count, a run length, named series (each
    an ordered sequence of lattice snapshots) and named scalar attributes;
    [series_metadata] is the [__series_metadata__] dict of the attribute
    that carries a series' name, present or not per series, and
    [attributes] is what [getattr] finds under a parameter name. The
    "states" entry of the metadata is a sequence of state names: the
    plotter takes its [len] and indexes it with integers. *)
Module Experiment.
Record t := {
  agent_types : Z;
  length : Z;
  series : gmap string (list Lattice);
  series_metadata : gmap string (gmap string (list string));
  attributes : gmap string Value;
}.
End Experiment.
Abbreviation Experiment := Experiment.t.

(** Modelled from the spec: the parameter set of the collection, not
    among the sources. It is read with [[...]] (the values a parameter
    ranges over, a [KeyError] when the name is not a key) and has the
    names of the varying parameters in [parameters_to_vary]. *)
Record ExperimentParametersSet := {
  parameters : gmap string (list Z);
  parameters_to_vary : gset string;
}.

(** Modelled from the spec: [simulab.simulation.core.runner.Runner], not
    among the sources; the ordered list of experiments and the parameter
    set. *)
Record Runner := {
  experiments : list Experiment;
  experiment_parameters_set : ExperimentParametersSet;
}.

(** [getattr(experiment, attribute)] *)
Definition getattr (experiment : Experiment) (attribute : string) : result Value :=
  match Experiment.attributes experiment !! attribute with
  | Some v => Ok v
  | None => Raise AttributeError
  end.

(** [getattr(experiment, series_name).__series_metadata__] *)
Definition getattr_series_metadata (experiment : Experiment) (series_name : string)
    : result (gmap string (list string)) :=
  match Experiment.series_metadata experiment !! series_name with
  | Some md => Ok md
  | None => Raise AttributeError
  end.

(** The dict [get_series_metadata] returns. *)
Record SeriesMetadata := {
  md_tickvals : list num;
  md_labelalias : dict string;
}.

(** One row of the grid, the dict [process_series] builds per experiment. *)
Record Row := {
  index : Z;
  first_lattice : Lattice;
  last_lattice : Lattice;
  title : string;
  subplot_titles : list string;
  tickvals : list num;
  labelalias : dict string;
}.

(** ** [FinalGridSeries.get_series_metadata] *)

Section get_series_metadata.
Context `{!Runtime}.

(** The [try]/[except KeyError] around [max_agent_types]. *)
Definition resolve_max_agent_types (runner : Runner) (experiment : Experiment)
    : result Z :=
  match l ← getitem_dict (parameters (experiment_parameters_set runner)) "agent_types";
        Py.max l with
  | Raise KeyError => Ok (Experiment.agent_types experiment)
  | r => r
  end.

(** The two locals the [finally] clause reads; [None] is "not yet bound". *)
Record Locals := {
  l_tickvals : option (list num);
  l_labelalias : option (dict string);
}.

Definition unbound : Locals := {| l_tickvals := None; l_labelalias := None |}.

(** The text of one label of the per-state branch. *)
Definition state_label (states : list string) (max_agent_types : Z) (i : Z)
    : result string :=
  m ← mod_ i max_agent_types;
  d ← floordiv i max_agent_types;
  s ← getitem_list states d;
  Ok (pretty m +:+ " " +:+ s).

(** The [try] body: the locals as it leaves them, and the exception it
    raised, if any. *)
Definition try_states (metadata : gmap string (list string)) (max_agent_types : Z)
    : Locals * option exn :=
  match getitem_dict metadata "states" with
  | Raise e => (unbound, Some e)
  | Ok states =>
      let agent_types_amount := max_agent_types * len states in
      let tickvals := range agent_types_amount in
      let locals := {| l_tickvals := Some (Int <$> tickvals); l_labelalias := None |} in
      match dict_comprehension Int (state_label states max_agent_types) tickvals with
      | Raise e => (locals, Some e)
      | Ok labelalias =>
          ({| l_tickvals := Some (Int <$> tickvals);
              l_labelalias := Some labelalias |}, None)
      end
  end.

(** The [except KeyError] handler, entered with the locals of the [try]
    body. *)
Definition except_KeyError (runner : Runner) (experiment : Experiment)
    (series_name : string) (max_agent_types : Z) (locals : Locals)
    : Locals * option exn :=
  match s ← getitem_dict (Experiment.series experiment) series_name;
        snapshot ← getitem_list s 0;
        let lattice := sum_lists snapshot in
        _min ← Py.min lattice;
        _max ← Py.max lattice;
        Ok (_min, _max) with
  | Raise e => (locals, Some e)
  | Ok (_min, _max) =>
      if _max - _min >? max_agent_types then
        let tickvals :=
          linspace (inject_Z _min) (inject_Z (_max + 1))
                   (8 * List.length (experiments runner)) in
        match dict_comprehension Float (λ i, Ok (float_str i)) tickvals with
        | Raise e => ({| l_tickvals := Some (Float <$> tickvals);
                         l_labelalias := l_labelalias locals |}, Some e)
        | Ok labelalias =>
            ({| l_tickvals := Some (Float <$> tickvals);
                l_labelalias := Some labelalias |}, None)
        end
      else
        let tickvals := range max_agent_types in
        match dict_comprehension Int (λ i, Ok (pretty i)) tickvals with
        | Raise e => ({| l_tickvals := Some (Int <$> tickvals);
                         l_labelalias := l_labelalias locals |}, Some e)
        | Ok labelalias =>
            ({| l_tickvals := Some (Int <$> tickvals);
                l_labelalias := Some labelalias |}, None)
        end
  end.

(** [finally: return {...}]: the pending exception, if any, is dropped;
    reading a local that was never bound raises. *)
Definition finally_return (locals : Locals) : result SeriesMetadata :=
  match l_tickvals locals, l_labelalias locals with
  | Some tickvals, Some labelalias =>
      Ok {| md_tickvals := tickvals; md_labelalias := labelalias |}
  | _, _ => Raise UnboundLocalError
  end.

Definition get_series_metadata (series_name : string) (runner : Runner)
    : result SeriesMetadata :=
  experiment ← getitem_list (experiments runner) 0;
  max_agent_types ← resolve_max_agent_types runner experiment;
  metadata ← getattr_series_metadata experiment series_name;
  let '(locals, pending) := try_states metadata max_agent_types in
  let '(locals, pending) :=
    match pending with
    | Some KeyError =>
        except_KeyError runner experiment series_name max_agent_types locals
    | _ => (locals, pending)
    end in
  finally_return locals.

End get_series_metadata.

(** ** The plotly objects the plotter builds

    A figure is the record of what the plotter sets on it: the
    annotations and axes [make_subplots] creates, the layout attributes
    written by [update_xaxes], [update_yaxes] and [update_layout], and the
    traces added by [add_trace]. An attribute nobody set is [None].
    The record keeps what the plotter writes; what plotly accepts as a
    value of an attribute (a height, the name of a colour scale) is not
    part of it, so the statements about a figure are about the figures
    that are produced. *)

Module go.

Record Annotation := {
  text : string;
  x : option Q;
}.

Inductive Autorange : Set := AutorangeTrue | AutorangeReversed.

Record XAxis := {
  x_range : option (Z * Z);
  x_constrain : option string;
  x_visible : option bool;
  x_autorange : option Autorange;
}.

Record YAxis := {
  y_constrain : option string;
  y_visible : option bool;
  y_autorange : option Autorange;
  y_scaleanchor : option string;
}.

Record ColorBar := {
  cb_title : string;
  titleside : string;
  tickmode : string;
  cb_tickvals : list F64.float;
  ticktext : list string;
  ticks : string;
}.

Record ColorAxis := {
  colorscale : string;
  colorbar : ColorBar;
  cmin : Z;
  cmax : Z;
}.

Record Margin := { l : Z; r : Z; t : Z; b : Z }.

Record Grid := { rows : Z; columns : Z; pattern : string }.

Record Layout := {
  height : option Z;
  width : option Z;
  title_text : option string;
  coloraxis_showscale : option bool;
  coloraxis : option ColorAxis;
  margin : option Margin;
  grid : option Grid;
}.

(** A heatmap trace, with the axes [add_trace] binds it to. *)
Record Heatmap := {
  z : Lattice;
  hm_coloraxis : string;
  hovertemplate : string;
  xaxis : Z;
  yaxis : Z;
}.

(** Axes are numbered from 1 ([xaxis], [xaxis2], ...). [subplot_grid] is
    the (rows, cols) shape [make_subplots] was called with. *)
Record Figure := {
  subplot_grid : Z * Z;
  annotations : list Annotation;
  xaxes : gmap Z XAxis;
  yaxes : gmap Z YAxis;
  layout : Layout;
  data : list Heatmap;
}.

Definition empty_xaxis : XAxis :=
  {| x_range := None; x_constrain := None; x_visible := None; x_autorange := None |}.

Definition empty_yaxis : YAxis :=
  {| y_constrain := None; y_visible := None; y_autorange := None;
     y_scaleanchor := None |}.

Definition empty_layout : Layout :=
  {| height := None; width := None; title_text := None;
     coloraxis_showscale := None; coloraxis := None; margin := None;
     grid := None |}.

(** [make_subplots(rows, cols, subplot_titles=..., row_titles=...)]: one
    pair of axes per cell, one annotation per title that is not empty,
    subplot titles first; [rows] and [cols] must be positive. *)
Definition make_subplots (rows cols : Z) (subplot_titles row_titles : list string)
    : result Figure :=
  if (rows <=? 0) || (cols <=? 0) then Raise ValueError
  else
    let cells := seqZ 1 (rows * cols) in
    let titles := filter (λ s, s ≠ "") (subplot_titles ++ row_titles) in
    Ok {| subplot_grid := (rows, cols);
          annotations := (λ s, {| text := s; x := None |}) <$> titles;
          xaxes := list_to_map ((λ i, (i, empty_xaxis)) <$> cells);
          yaxes := list_to_map ((λ i, (i, empty_yaxis)) <$> cells);
          layout := empty_layout;
          data := [] |}.

(** [figure.for_each_annotation(fn)] *)
Definition for_each_annotation (fn : Annotation → Annotation) (figure : Figure)
    : Figure :=
  {| subplot_grid := subplot_grid figure;
     annotations := fn <$> annotations figure;
     xaxes := xaxes figure; yaxes := yaxes figure;
     layout := layout figure; data := data figure |}.

(** [figure.update_xaxes(...)] and [figure.update_yaxes(...)]: the update
    is applied to every axis of the figure. *)
Definition update_xaxes (upd : XAxis → XAxis) (figure : Figure) : Figure :=
  {| subplot_grid := subplot_grid figure;
     annotations := annotations figure;
     xaxes := upd <$> xaxes figure; yaxes := yaxes figure;
     layout := layout figure; data := data figure |}.

Definition update_yaxes (upd : YAxis → YAxis) (figure : Figure) : Figure :=
  {| subplot_grid := subplot_grid figure;
     annotations := annotations figure;
     xaxes := xaxes figure; yaxes := upd <$> yaxes figure;
     layout := layout figure; data := data figure |}.

(** [figure.update_layout(yaxisN_scaleanchor=anchor)]; an axis that does
    not exist yet is created. *)
Definition set_scaleanchor (n : Z) (anchor : string) (axes : gmap Z YAxis)
    : gmap Z YAxis :=
  let axis := default empty_yaxis (axes !! n) in
  <[n := {| y_constrain := y_constrain axis; y_visible := y_visible axis;
            y_autorange := y_autorange axis; y_scaleanchor := Some anchor |}]> axes.

(** [figure.add_trace(trace, row=row, col=col)]: the cell must be in the
    grid; the trace is bound to that cell's axes. *)
Definition add_trace (z : Lattice) (coloraxis hovertemplate : string)
    (row col : Z) (figure : Figure) : result Figure :=
  let '(rows, cols) := subplot_grid figure in
  if (1 <=? row) && (row <=? rows) && (1 <=? col) && (col <=? cols) then
    let cell := (row - 1) * cols + col in
    Ok {| subplot_grid := subplot_grid figure;
          annotations := annotations figure;
          xaxes := xaxes figure; yaxes := yaxes figure;
          layout := layout figure;
          data := data figure ++
                  [{| z := z; hm_coloraxis := coloraxis;
                      hovertemplate := hovertemplate;
                      xaxis := cell; yaxis := cell |}] |}
  else Raise IndexError.

End go.

(** ** [FinalGridSeries] *)

Section FinalGridSeries.
Context `{!Runtime}.

(** The body of the loop of [process_series], for one experiment. *)
Definition row_of (series_name : string) (params : gset string)
    (metadata : SeriesMetadata) (index : Z) (experiment : Experiment) : result Row :=
  s ← getitem_dict (Experiment.series experiment) series_name;
  first ← getitem_list s 0;
  last ← getitem_list s (-1);
  segments ← comprehension
    (λ attribute, v ← getattr experiment attribute; Ok (attribute +:+ "=" +:+ str v))
    (set_iter params);
  Ok {| index := index;
        first_lattice := first;
        last_lattice := last;
        title := Py.join "<br>" segments;
        subplot_titles := ["t_0"; "t_" +:+ pretty (len s - 1)];
        tickvals := md_tickvals metadata;
        labelalias := md_labelalias metadata |}.

(** The loop of [process_series], given the metadata. *)
Definition rows_of (runner : Runner) (series_name : string) (params : gset string)
    (metadata : SeriesMetadata) : result (list Row) :=
  comprehension (λ '(index, experiment), row_of series_name params metadata index experiment)
                (enumerate (experiments runner) 1).

Definition process_series (runner : Runner) (series_name : string)
    (params : gset string) : result (list Row) :=
  metadata ← get_series_metadata series_name runner;
  rows_of runner series_name params metadata.

Definition all_values (rows : list Row) : list Z :=
  foldl (λ acc row, (acc ++ sum_lists (first_lattice row)) ++ sum_lists (last_lattice row))
        [] rows.

Definition calculate_global_min_max (rows : list Row) : result (Z * Z) :=
  _min ← Py.min (all_values rows);
  _max ← Py.max (all_values rows);
  Ok (_min, _max).

Definition make_figure (rows : list Row) : result go.Figure :=
  subplot_titles ← comprehension
    (λ '(row, i), getitem_list (subplot_titles row) i)
    (row ← rows; i ← range 2; [(row, i)]);
  let row_titles := title <$> rows in
  figure ← go.make_subplots (len rows) 2 subplot_titles row_titles;
  Ok (go.for_each_annotation
        (λ a, if decide (go.text a ∈ row_titles)
              then {| go.text := go.text a; go.x := Some (- (7 # 100))%Q |}
              else a)
        figure).

(** [height if height else max(600, 300 * len(rows))] *)
Definition calculated_height (height : option Z) (rows : list Row) : Z :=
  match height with
  | Some h => if h =? 0 then Z.max 600 (300 * len rows) else h
  | None => Z.max 600 (300 * len rows)
  end.

Definition configure_figure (figure : go.Figure) (runner : Runner)
    (plot_title leyend : string) (height : option Z) (rows : list Row)
    (zmin zmax : Z) (colorscale : string) : result go.Figure :=
  experiment ← getitem_list (experiments runner) 0;
  let figure := go.update_xaxes
    (λ _, {| go.x_range := Some (0, Experiment.length experiment - 1);
             go.x_constrain := Some "domain";
             go.x_visible := Some false;
             go.x_autorange := Some go.AutorangeTrue |}) figure in
  let figure := go.update_yaxes
    (λ a, {| go.y_constrain := Some "domain";
             go.y_visible := Some false;
             go.y_autorange := Some go.AutorangeReversed;
             go.y_scaleanchor := go.y_scaleanchor a |}) figure in
  row0 ← getitem_list rows 0;
  let tick_count := List.length (tickvals row0) in
  new_tickvals ← F64.linspace_int zmin zmax tick_count;
  let calculated_height := calculated_height height rows in
  Ok {| go.subplot_grid := go.subplot_grid figure;
        go.annotations := go.annotations figure;
        go.xaxes := go.xaxes figure;
        go.yaxes :=
          foldl (λ axes i, go.set_scaleanchor i ("x" +:+ pretty i) axes)
                (go.set_scaleanchor 1 "x" (go.yaxes figure))
                (range_from 2 (len rows * 2 + 1));
        go.layout :=
          {| go.height := Some calculated_height;
             go.width := Some 700;
             go.title_text := Some plot_title;
             go.coloraxis_showscale := Some true;
             go.coloraxis := Some
               {| go.colorscale := colorscale;
                  go.colorbar :=
                    {| go.cb_title := leyend;
                       go.titleside := "top";
                       go.tickmode := "array";
                       go.cb_tickvals := new_tickvals;
                       go.ticktext := F64.format_1f <$> new_tickvals;
                       go.ticks := "outside" |};
                  go.cmin := zmin;
                  go.cmax := zmax |};
             go.margin := Some {| go.l := 50; go.r := 50; go.t := 100; go.b := 100 |};
             go.grid := Some {| go.rows := len rows; go.columns := 2;
                                go.pattern := "independent" |} |};
        go.data := go.data figure |}.

Definition configure_heatmaps (figure : go.Figure) (rows : list Row)
    : result go.Figure :=
  for_each
    (λ figure row,
       let lattice_data := [(1, first_lattice row); (2, last_lattice row)] in
       for_each
         (λ figure '(column, lattice),
            go.add_trace lattice "coloraxis"
              "x: %{y}<br>y: %{x}<br>z: %{z}<extra></extra>"
              (index row) column figure)
         lattice_data figure)
    rows figure.

(** [params_set] of [show_up]. *)
Definition params_set (runner : Runner) (attributes_to_consider : option (list string))
    : gset string :=
  let params :=
    match attributes_to_consider with
    | None | Some [] => []
    | Some l => l
    end in
  list_to_set params ∪ parameters_to_vary (experiment_parameters_set runner).

(** [show_up]; its result is the figure handed to [figure.show()]. *)
Definition show_up (series_name : string) (runner : Runner) (plot_title : string)
    (height : option Z) (leyend : string)
    (attributes_to_consider : option (list string)) (colorscale : string)
    : result go.Figure :=
  let params_set := params_set runner attributes_to_consider in
  rows ← process_series runner series_name params_set;
  '(zmin, zmax) ← calculate_global_min_max rows;
  figure ← make_figure rows;
  figure ← configure_figure figure runner plot_title leyend height rows zmin zmax
                            colorscale;
  configure_heatmaps figure rows.

(** [show_up] from the point where [process_series] has the metadata. *)
Definition show_up_with (metadata : SeriesMetadata) (series_name : string)
    (runner : Runner) (plot_title : string) (height : option Z) (leyend : string)
    (attributes_to_consider : option (list string)) (colorscale : string)
    : result go.Figure :=
  let params_set := params_set runner attributes_to_consider in
  rows ← rows_of runner series_name params_set metadata;
  '(zmin, zmax) ← calculate_global_min_max rows;
  figure ← make_figure rows;
  figure ← configure_figure figure runner plot_title leyend height rows zmin zmax
                            colorscale;
  configure_heatmaps figure rows.

End FinalGridSeries.

(** ** Sample data *)

(** A runtime to evaluate the plotter with: a set is iterated in the order
    of [elements], a float is printed as its exact fraction. *)
Definition sample_runtime : Runtime :=
  {| set_iter := elements;
     set_iter_perm := λ X, reflexivity (elements X);
     float_str := λ q, pretty (Qnum q) +:+ "/" +:+ pretty (Z.pos (Qden q)) |}.

Definition sample_experiment (seed : Z) (metadata : gmap string (list string))
    (last : Lattice) : Experiment :=
  {| Experiment.agent_types := 2;
     Experiment.length := 3;
     Experiment.series := {[ "lattice" := [[[0; 1]; [2; 3]]; [[1; 1]; [1; 1]]; last] ]};
     Experiment.series_metadata := {[ "lattice" := metadata ]};
     Experiment.attributes := {[ "seed" := VInt seed; "rule" := VStr "majority" ]} |}.

Definition sample_runner (metadata : gmap string (list string))
    (parameters : gmap string (list Z)) : Runner :=
  {| experiments := [sample_experiment 1 metadata [[5; 6]; [7; 8]];
                     sample_experiment 2 metadata [[4; 4]; [4; 4]]];
     experiment_parameters_set :=
       {| parameters := parameters; parameters_to_vary := {[ "seed" ]} |} |}.

(** Two states per agent type, and the agent types given as a parameter. *)
Definition states_runner : Runner :=
  sample_runner {[ "states" := ["idle"; "busy"] ]} {[ "agent_types" := [2; 3] ]}.


(** No per-state metadata: spread 3 against 4 agent types. *)
Definition agent_types_runner : Runner := sample_runner ∅ {[ "agent_types" := [4] ]}.

(** The collection of [states_runner] with another second experiment. *)
Definition other_states_runner : Runner :=
  {| experiments := [sample_experiment 1 {[ "states" := ["idle"; "busy"] ]}
                                       [[5; 6]; [7; 8]];
                     sample_experiment 7 ∅ [[9; 9]]];
     experiment_parameters_set :=
       {| parameters := {[ "agent_types" := [2; 3] ]};
          parameters_to_vary := {[ "seed" ]} |} |}.

(** Seven states against three agent types, and cells from 0 to 9: 21
    ticks over the range 0..9. *)
Definition seven_states_runner : Runner :=
  {| experiments :=
       [sample_experiment 1
          {[ "states" := ["s0"; "s1"; "s2"; "s3"; "s4"; "s5"; "s6"] ]}
          [[5; 6]; [7; 9]]];
     experiment_parameters_set :=
       {| parameters := {[ "agent_types" := [3] ]};
          parameters_to_vary := {[ "seed" ]} |} |}.

(** A collection whose second experiment lacks the attribute "seed". *)
Definition unseeded_runner : Runner :=
  {| experiments := [sample_experiment 1 ∅ [[5; 6]; [7; 8]];
                     {| Experiment.agent_types := 2;
                        Experiment.length := 3;
                        Experiment.series := {[ "lattice" := [[[0; 1]; [2; 3]]] ]};
                        Experiment.series_metadata := ∅;
                        Experiment.attributes := {[ "rule" := VStr "majority" ]} |}];
     experiment_parameters_set :=
       {| parameters := ∅; parameters_to_vary := {[ "seed" ]} |} |}.

(** ** Notions the statements use *)

(** The least and the greatest element of a list. *)
Definition is_minimum (m : Z) (l : list Z) : Prop := m ∈ l ∧ ∀ v, v ∈ l → m ≤ v.
Definition is_maximum (m : Z) (l : list Z) : Prop := m ∈ l ∧ ∀ v, v ∈ l → v ≤ m.

(** [v] is a cell of the first or of the last lattice of one of the rows. *)
Definition snapshot_value (rows : list Row) (v : Z) : Prop :=
  ∃ row cells, row ∈ rows
    ∧ (cells ∈ first_lattice row ∨ cells ∈ last_lattice row)
    ∧ v ∈ cells.

(** The [i]-th of [n] points: [start] plus [i] steps of
    [(stop - start) / (n - 1)]; the only point of one is [start]. *)
Definition linspace_point (start stop : Q) (n i : nat) : Q :=
  if decide (n = 1%nat) then start
  else (start + inject_Z (Z.of_nat i)
                * ((stop - start) / inject_Z (Z.of_nat (n - 1))))%Q.

(** [figure'] differs from [figure] in its traces at most. *)
Definition same_frame (figure figure' : go.Figure) : Prop :=
  go.subplot_grid figure' = go.subplot_grid figure
  ∧ go.annotations figure' = go.annotations figure
  ∧ go.xaxes figure' = go.xaxes figure
  ∧ go.yaxes figure' = go.yaxes figure
  ∧ go.layout figure' = go.layout figure.

(** The row with the tick values and labels of [metadata]. *)
Definition with_metadata (metadata : SeriesMetadata) (row : Row) : Row :=
  {| index := index row;
     first_lattice := first_lattice row;
     last_lattice := last_lattice row;
     title := title row;
     subplot_titles := subplot_titles row;
     tickvals := md_tickvals metadata;
     labelalias := md_labelalias metadata |}.

(** What the rows and the global range need of the input, once the
    metadata is at hand: in every experiment, the series with at least one
    snapshot, and every title parameter as an attribute; and a cell in
    some first or last snapshot. *)
Definition preparable (series_name : string) (runner : Runner)
    (params : gset string) : Prop :=
  (∀ experiment, experiment ∈ experiments runner →
     (∃ s, Experiment.series experiment !! series_name = Some s ∧ s ≠ [])
     ∧ ∀ p, p ∈ params → is_Some (Experiment.attributes experiment !! p))
  ∧ (∃ experiment s snapshot cells v,
       experiment ∈ experiments runner
       ∧ Experiment.series experiment !! series_name = Some s
       ∧ (getitem_list s 0 = Ok snapshot ∨ getitem_list s (-1) = Ok snapshot)
       ∧ cells ∈ snapshot ∧ v ∈ cells).

(** The cells the fallback branch of [get_series_metadata] reads: the
    flattened first snapshot of the experiment's series, nothing when the
    series is missing or has no snapshot. *)
Definition first_snapshot_cells (series_name : string) (experiment : Experiment)
    : list Z :=
  match Experiment.series experiment !! series_name with
  | Some (snapshot :: _) => sum_lists snapshot
  | _ => []
  end.

(** The two heatmaps of a row: the first lattice in column 1 and the last
    lattice in column 2 of the grid row [index], on the shared colour
    axis. *)
Definition row_traces (row : Row) : list go.Heatmap :=
  [ {| go.z := first_lattice row; go.hm_coloraxis := "coloraxis";
       go.hovertemplate := "x: %{y}<br>y: %{x}<br>z: %{z}<extra></extra>";
       go.xaxis := (index row - 1) * 2 + 1; go.yaxis := (index row - 1) * 2 + 1 |};
    {| go.z := last_lattice row; go.hm_coloraxis := "coloraxis";
       go.hovertemplate := "x: %{y}<br>y: %{x}<br>z: %{z}<extra></extra>";
       go.xaxis := (index row - 1) * 2 + 2; go.yaxis := (index row - 1) * 2 + 2 |} ].

(** [label] is the float64 [x] with one decimal: for a finite [x] that is
    not zero, the sign and the digits of a number of tenths within half a
    tenth of the value of [x]. *)
Definition shows_one_decimal (x : F64.float) (label : string) : Prop :=
  match x with
  | SpecFloat.S754_nan => label = "nan"
  | SpecFloat.S754_infinity s => label = F64.sign s +:+ "inf"
  | SpecFloat.S754_zero s => label = F64.sign s +:+ "0.0"
  | SpecFloat.S754_finite s _ _ =>
      ∃ tenths : Z,
        0 ≤ tenths
        ∧ (Qabs (Qabs (F64.to_Q x) * inject_Z 10 - inject_Z tenths) <= 1 # 2)%Q
        ∧ label = F64.sign s +:+ pretty (tenths `div` 10) +:+ "."
                  +:+ pretty (tenths `mod` 10)
  end.

(** ** Properties of the Python fragment *)

Section PyFacts.

Lemma bind_Ok {A B} (m : result A) (k : A → result B) (b : B) :
  m ≫= k = Ok b ↔ ∃ a, m = Ok a ∧ k a = Ok b.
Proof.
  destruct m as [a|e]; simpl; split.
  - eauto.
  - by intros (a' & [= <-] & Hk).
  - done.
  - by intros (a' & [=] & _).
Qed.

Lemma len_nonneg {A} (l : list A) : 0 ≤ len l.
Proof. unfold len. lia. Qed.

Lemma getitem_list_0 {A} (l : list A) (a : A) :
  getitem_list l 0 = Ok a ↔ l !! 0%nat = Some a.
Proof.
  unfold getitem_list. simpl. destruct l as [|a' l]; simpl; split; congruence.
Qed.

Lemma getitem_list_nonneg {A} (l : list A) (i : Z) (a : A) :
  0 ≤ i → l !! Z.to_nat i = Some a → getitem_list l i = Ok a.
Proof.
  intros Hi Hl. unfold getitem_list.
  assert ((i <? 0) = false) as Hf by lia.
  cbv zeta. rewrite Hf. cbv iota. by rewrite Hf, Hl.
Qed.


Lemma foldl_min_spec (l : list Z) (x : Z) :
  (foldl Z.min x l = x ∨ foldl Z.min x l ∈ l)
  ∧ foldl Z.min x l ≤ x ∧ ∀ v, v ∈ l → foldl Z.min x l ≤ v.
Proof.
  revert x. induction l as [|y l IH]; intros x; simpl.
  - split; [by left|]. split; [lia|]. by intros v ?%elem_of_nil.
  - destruct (IH (Z.min x y)) as (Hin & Hle & Hall). split; [|split].
    + destruct Hin as [->|Hin].
      * destruct (Z.min_spec x y) as [[_ ->]|[_ ->]]; [by left|].
        right. apply list_elem_of_here.
      * right. by apply list_elem_of_further.
    + lia.
    + intros v [->|Hv]%elem_of_cons; [lia|by apply Hall].
Qed.

Lemma foldl_max_spec (l : list Z) (x : Z) :
  (foldl Z.max x l = x ∨ foldl Z.max x l ∈ l)
  ∧ x ≤ foldl Z.max x l ∧ ∀ v, v ∈ l → v ≤ foldl Z.max x l.
Proof.
  revert x. induction l as [|y l IH]; intros x; simpl.
  - split; [by left|]. split; [lia|]. by intros v ?%elem_of_nil.
  - destruct (IH (Z.max x y)) as (Hin & Hle & Hall). split; [|split].
    + destruct Hin as [->|Hin].
      * destruct (Z.max_spec x y) as [[_ ->]|[_ ->]]; [|by left].
        right. apply list_elem_of_here.
      * right. by apply list_elem_of_further.
    + lia.
    + intros v [->|Hv]%elem_of_cons; [lia|by apply Hall].
Qed.

Lemma min_Ok (l : list Z) (m : Z) : Py.min l = Ok m ↔ is_minimum m l.
Proof.
  destruct l as [|x l]; simpl; split.
  - done.
  - by intros [?%elem_of_nil _].
  - intros [= <-]. destruct (foldl_min_spec l x) as (Hin & Hle & Hall). split.
    + destruct Hin as [->|Hin]; [apply list_elem_of_here|by apply list_elem_of_further].
    + intros v [->|Hv]%elem_of_cons; [done|by apply Hall].
  - intros [Hin Hall]. f_equal.
    destruct (foldl_min_spec l x) as (Hin' & Hle & Hall').
    assert (foldl Z.min x l ∈ x :: l) as Hmem.
    { destruct Hin' as [->|?]; [apply list_elem_of_here|by apply list_elem_of_further]. }
    apply Hall in Hmem.
    apply elem_of_cons in Hin as [->|Hin]; [lia|]. apply Hall' in Hin. lia.
Qed.

Lemma max_Ok (l : list Z) (m : Z) : Py.max l = Ok m ↔ is_maximum m l.
Proof.
  destruct l as [|x l]; simpl; split.
  - done.
  - by intros [?%elem_of_nil _].
  - intros [= <-]. destruct (foldl_max_spec l x) as (Hin & Hle & Hall). split.
    + destruct Hin as [->|Hin]; [apply list_elem_of_here|by apply list_elem_of_further].
    + intros v [->|Hv]%elem_of_cons; [done|by apply Hall].
  - intros [Hin Hall]. f_equal.
    destruct (foldl_max_spec l x) as (Hin' & Hle & Hall').
    assert (foldl Z.max x l ∈ x :: l) as Hmem.
    { destruct Hin' as [->|?]; [apply list_elem_of_here|by apply list_elem_of_further]. }
    apply Hall in Hmem.
    apply elem_of_cons in Hin as [->|Hin]; [lia|]. apply Hall' in Hin. lia.
Qed.

Lemma max_not_KeyError (l : list Z) : Py.max l ≠ Raise KeyError.
Proof. by destruct l. Qed.

End PyFacts.

(** ** Comprehensions and loops *)

Section Comprehensions.
Context {A B : Type}.
Implicit Types (f : A → result B) (l : list A).

Lemma comprehension_Ok f l (bs : list B) :
  comprehension f l = Ok bs ↔ Forall2 (λ a b, f a = Ok b) l bs.
Proof.
  revert bs. induction l as [|a l IH]; intros bs; simpl.
  - split; [intros [= <-]; constructor|by intros ->%Forall2_nil_inv_l].
  - rewrite bind_Ok. split.
    + intros (b & Hb & (bs' & Hbs & [= <-])%bind_Ok).
      constructor; [done|by apply IH].
    + intros (b & bs' & Hb & Hbs & ->)%Forall2_cons_inv_l.
      exists b. split; [done|]. apply bind_Ok. exists bs'. by rewrite IH.
Qed.

Lemma comprehension_length f l (bs : list B) :
  comprehension f l = Ok bs → length bs = length l.
Proof. intros ?%comprehension_Ok. symmetry. by eapply Forall2_length. Qed.

End Comprehensions.

Lemma enumerate_lookup {A} (l : list A) (start : Z) (i : nat) :
  enumerate l start !! i = (λ a, (start + Z.of_nat i, a)) <$> l !! i.
Proof.
  revert start i. induction l as [|a l IH]; intros start [|i]; simpl; try done.
  - by rewrite Z.add_0_r.
  - rewrite IH. destruct (l !! i); simpl; [|done]. do 2 f_equal. lia.
Qed.

Lemma enumerate_length {A} (l : list A) (start : Z) :
  length (enumerate l start) = length l.
Proof. revert start. induction l; intros; simpl; [done|]. by f_equal. Qed.

Lemma comprehension_total {A B} (f : A → result B) (l : list A) :
  (∀ a, a ∈ l → ∃ b, f a = Ok b) → ∃ bs, comprehension f l = Ok bs.
Proof.
  induction l as [|a l IH]; intros Hf; simpl; [eauto|].
  destruct (Hf a) as [b ->]; [apply list_elem_of_here|].
  destruct IH as [bs ->]; [|simpl; eauto].
  intros a' ?. apply Hf. by apply list_elem_of_further.
Qed.

Lemma elem_of_enumerate {A} (l : list A) (start i : Z) (a : A) :
  (i, a) ∈ enumerate l start → a ∈ l ∧ start ≤ i < start + len l.
Proof.
  intros (n & Hn)%list_elem_of_lookup_1. rewrite enumerate_lookup in Hn.
  destruct (l !! n) as [a'|] eqn:Ha; simplify_eq/=.
  split; [by eapply list_elem_of_lookup_2|].
  apply lookup_lt_Some in Ha. unfold len. lia.
Qed.

Lemma comprehension_app {A B} (f : A → result B) (l1 l2 : list A) :
  comprehension f (l1 ++ l2)
  = bs1 ← comprehension f l1; bs2 ← comprehension f l2; Ok (bs1 ++ bs2).
Proof.
  induction l1 as [|a l1 IH]; simpl.
  - by destruct (comprehension f l2).
  - destruct (f a) as [b|e]; simpl; [|done]. rewrite IH.
    destruct (comprehension f l1) as [bs1|e]; simpl; [|done].
    by destruct (comprehension f l2).
Qed.

Lemma comprehension_through {A B} (f g : A → result B) (h : B → B) (l : list A) :
  (∀ a, g a = match f a with Ok b => Ok (h b) | Raise e => Raise e end) →
  comprehension g l
  = match comprehension f l with Ok bs => Ok (h <$> bs) | Raise e => Raise e end.
Proof.
  intros Hg. induction l as [|a l IH]; simpl; [done|].
  rewrite Hg, IH. destruct (f a) as [b|e]; simpl; [|done].
  by destruct (comprehension f l).
Qed.

(** ** Dicts with numeric keys *)

Section Dicts.
Context {V : Type}.
Implicit Types (d : dict V) (k : num) (v : V).

Lemma num_eqb_refl k : num_eqb k k = true.
Proof. unfold num_eqb. by apply Qeq_bool_iff. Qed.

Lemma num_eqb_sym k k' : num_eqb k k' = num_eqb k' k.
Proof.
  unfold num_eqb. apply eq_true_iff_eq. rewrite !Qeq_bool_iff.
  split; intros Heq; by symmetry.
Qed.

Lemma num_eqb_trans k1 k2 k3 :
  num_eqb k1 k2 = true → num_eqb k1 k3 = num_eqb k2 k3.
Proof.
  unfold num_eqb. intros H12%Qeq_bool_iff.
  apply eq_true_iff_eq. rewrite !Qeq_bool_iff. by rewrite H12.
Qed.

Lemma num_eqb_Int (a b : Z) : num_eqb (Int a) (Int b) = true ↔ a = b.
Proof.
  unfold num_eqb. simpl. rewrite Qeq_bool_iff. unfold Qeq. simpl. lia.
Qed.

Lemma getitem_proper d k k' : num_eqb k k' = true → getitem d k = getitem d k'.
Proof.
  intros Hk. induction d as [|[k0 v0] d IH]; simpl; [done|].
  rewrite (num_eqb_sym k0 k), (num_eqb_trans _ _ _ Hk), (num_eqb_sym k' k0).
  by rewrite IH.
Qed.

Lemma getitem_setitem d k v k' :
  getitem (setitem d k v) k' = if num_eqb k k' then Ok v else getitem d k'.
Proof.
  induction d as [|[k0 v0] d IH]; simpl; [done|].
  destruct (num_eqb k0 k) eqn:H0; simpl.
  - rewrite (num_eqb_trans _ _ _ H0). by destruct (num_eqb k k').
  - rewrite IH. destruct (num_eqb k0 k') eqn:H0'; [|done].
    rewrite (num_eqb_sym k k'), <- (num_eqb_trans _ _ _ H0'), H0. done.
Qed.

(** A comprehension whose values do not raise, and agree on equal keys,
    builds the dict that maps each key to its value. *)
Lemma dict_comprehension_from_Ok {A} (key : A → num) (val : A → result V)
    (label : A → V) (l : list A) d :
  (∀ a, a ∈ l → val a = Ok (label a)) →
  (∀ a a', a ∈ l → a' ∈ l → num_eqb (key a) (key a') = true → label a = label a') →
  ∃ d', dict_comprehension_from d key val l = Ok d'
    ∧ (∀ a, a ∈ l → getitem d' (key a) = Ok (label a))
    ∧ (∀ k, (∀ a, a ∈ l → num_eqb (key a) k = false) → getitem d' k = getitem d k).
Proof.
  revert d. induction l as [|a l IH]; intros d Hval Hsame; simpl.
  - exists d. split; [done|]. split; [by intros a ?%elem_of_nil|done].
  - rewrite (Hval a) by apply list_elem_of_here. simpl.
    destruct (IH (setitem d (key a) (label a))) as (d' & Hrun & Hin & Hout).
    { intros a' ?. apply Hval. by apply list_elem_of_further. }
    { intros a1 a2 ??. apply Hsame; by apply list_elem_of_further. }
    exists d'. split; [done|]. split.
    + intros a0 [->|Ha0]%elem_of_cons; [|by apply Hin].
      destruct (decide (Exists (λ a', num_eqb (key a') (key a) = true) l))
        as [(a' & Ha' & Heq)%Exists_exists|Hnone].
      * rewrite <- (getitem_proper _ _ _ Heq), (Hin a' Ha'). f_equal.
        apply Hsame; [by apply list_elem_of_further|apply list_elem_of_here|done].
      * rewrite Hout, getitem_setitem, num_eqb_refl; [done|].
        intros a' Ha'. apply not_true_is_false. intros Heq.
        apply Hnone, Exists_exists. eauto.
    + intros k Hk. rewrite Hout, getitem_setitem.
      * by rewrite (Hk a) by apply list_elem_of_here.
      * intros a' ?. apply Hk. by apply list_elem_of_further.
Qed.

Lemma dict_comprehension_Ok {A} (key : A → num) (val : A → result V)
    (label : A → V) (l : list A) :
  (∀ a, a ∈ l → val a = Ok (label a)) →
  (∀ a a', a ∈ l → a' ∈ l → num_eqb (key a) (key a') = true → label a = label a') →
  ∃ d, dict_comprehension key val l = Ok d
    ∧ (∀ a, a ∈ l → getitem d (key a) = Ok (label a))
    ∧ (∀ k, (∀ a, a ∈ l → num_eqb (key a) k = false) → getitem d k = Raise KeyError).
Proof.
  intros Hval Hsame.
  destruct (dict_comprehension_from_Ok key val label l [] Hval Hsame)
    as (d & Hrun & Hin & Hout).
  exists d. split; [done|]. split; [done|]. intros k Hk. by rewrite Hout.
Qed.

End Dicts.

(** ** [np.linspace] *)

Section Linspace.
Implicit Types (start stop : Q) (n i : nat).

Lemma Qred_Qred (q : Q) : Qred (Qred q) = Qred q.
Proof. apply Qred_complete, Qred_correct. Qed.

Lemma linspace_length start stop n : length (linspace start stop n) = n.
Proof.
  destruct n as [|[|n]]; simpl; [done..|].
  by rewrite length_fmap, length_seq.
Qed.

Lemma linspace_lookup start stop n i :
  (i < n)%nat →
  ∃ q, linspace start stop n !! i = Some q
    ∧ (q == linspace_point start stop n i)%Q
    ∧ Qred q = q.
Proof.
  intros Hi. unfold linspace_point. destruct n as [|[|n]]; [lia| |].
  - assert (i = 0%nat) as -> by lia. simpl. exists (Qred start).
    split; [done|]. split; [apply Qred_correct|apply Qred_Qred].
  - rewrite decide_False by lia. unfold linspace.
    rewrite list_lookup_fmap, lookup_seq_lt by lia. simpl.
    eexists. split; [done|]. split; [|apply Qred_Qred].
    rewrite Qred_correct. replace (n - 0)%nat with n by lia. done.
Qed.

Lemma linspace_reduced start stop n (q : Q) :
  q ∈ linspace start stop n → Qred q = q.
Proof.
  intros (i & Hi)%list_elem_of_lookup_1.
  destruct (linspace_lookup start stop n i) as (q' & Hq' & _ & Hred).
  - apply lookup_lt_Some in Hi. by rewrite linspace_length in Hi.
  - congruence.
Qed.


End Linspace.

(** ** float64: [np.linspace] and the one-decimal text *)

Lemma round_half_even_near (q : Q) :
  (Qabs (q - inject_Z (round_half_even q)) <= 1 # 2)%Q.
Proof.
  unfold round_half_even.
  pose proof (Qfloor_le q) as Hle. pose proof (Qlt_floor q) as Hlt.
  rewrite inject_Z_plus in Hlt. change (inject_Z 1) with 1%Q in Hlt.
  apply Qabs_Qle_condition.
  destruct (q - inject_Z (Qfloor q) ?= 1 # 2)%Q eqn:Hcmp.
  - apply Qeq_alt in Hcmp. destruct (Z.even (Qfloor q)).
    + split; lra.
    + rewrite inject_Z_plus. change (inject_Z 1) with 1%Q. split; lra.
  - apply Qlt_alt in Hcmp. split; lra.
  - apply Qgt_alt in Hcmp. rewrite inject_Z_plus. change (inject_Z 1) with 1%Q.
    split; lra.
Qed.

Lemma round_half_even_nonneg (q : Q) : (0 <= q)%Q → 0 ≤ round_half_even q.
Proof.
  intros Hq. unfold round_half_even.
  assert (0 ≤ Qfloor q) as Hfloor.
  { change 0 with (Qfloor 0). by apply Qfloor_resp_le. }
  destruct (_ ?= _)%Q; [destruct (Z.even _)|..]; lia.
Qed.

Lemma to_Q_sign (s : bool) (m : positive) (e : Z) :
  Qle_bool 0 (F64.to_Q (SpecFloat.S754_finite s m e)) = negb s.
Proof.
  unfold F64.to_Q, Qle_bool. destruct (Z.leb_spec 0 e) as [He|He]; destruct s; simpl.
  - assert (0 < 2 ^ e) by (apply Z.pow_pos_nonneg; lia).
    apply Z.leb_gt. pose proof (Pos2Z.neg_is_neg m). nia.
  - assert (0 < 2 ^ e) by (apply Z.pow_pos_nonneg; lia).
    apply Z.leb_le. pose proof (Pos2Z.pos_is_pos m). nia.
  - apply Z.leb_gt. lia.
  - apply Z.leb_le. lia.
Qed.

Lemma format_1f_shows_one_decimal (x : F64.float) :
  shows_one_decimal x (F64.format_1f x).
Proof.
  destruct x as [s|s| |s m e]; unfold shows_one_decimal, F64.format_1f; try done.
  exists (round_half_even (Qabs (F64.to_Q (SpecFloat.S754_finite s m e)) * inject_Z 10)).
  split; [|split].
  - apply round_half_even_nonneg.
    apply Qmult_le_0_compat; [apply Qabs_nonneg|done].
  - apply round_half_even_near.
  - unfold Py.format_1f. rewrite to_Q_sign. by destruct s.
Qed.

Lemma F64_linspace_length (start stop : F64.float) (n : nat) :
  length (F64.linspace start stop n) = n.
Proof.
  unfold F64.linspace.
  repeat case_match; rewrite ?length_insert, !length_fmap, length_seq; done.
Qed.

Lemma F64_linspace_last (start stop : F64.float) (n : nat) :
  (2 ≤ n)%nat → last (F64.linspace start stop n) = Some stop.
Proof.
  intros Hn. rewrite last_lookup, F64_linspace_length.
  unfold F64.linspace. rewrite (proj2 (Nat.ltb_lt 1 n)) by lia.
  replace (pred n) with (n - 1)%nat by lia.
  apply list_lookup_insert_eq. repeat case_match; rewrite !length_fmap, length_seq; lia.
Qed.

Lemma linspace_int_Ok (zmin zmax : Z) (n : nat) (ticks : list F64.float) :
  F64.linspace_int zmin zmax n = Ok ticks →
  ∃ start stop,
    F64.of_int zmin = Ok start ∧ F64.of_int zmax = Ok stop
    ∧ ticks = F64.linspace start stop n.
Proof.
  unfold F64.linspace_int.
  intros (start & Hstart & (stop & Hstop & [= <-])%bind_Ok)%bind_Ok. eauto.
Qed.

(** ** What each step of [show_up] leaves in the figure *)

Lemma for_each_invariant {A S} (P : S → Prop) (body : S → A → result S)
    (l : list A) (s s' : S) :
  (∀ s a s', a ∈ l → body s a = Ok s' → P s → P s') →
  for_each body l s = Ok s' → P s → P s'.
Proof.
  revert s. induction l as [|a l IH]; intros s Hbody; simpl.
  - by intros [= <-].
  - intros (s1 & Hs1 & Hrest)%bind_Ok Hs.
    eapply IH; [|done|].
    + intros ??? Hin. apply Hbody. by apply list_elem_of_further.
    + eapply Hbody; [apply list_elem_of_here|done..].
Qed.

Lemma seqZ_axes_lookup {V} (v : V) (n i : Z) :
  (list_to_map ((λ i, (i, v)) <$> seqZ 1 n) : gmap Z V) !! i
    = if decide (1 ≤ i ≤ n) then Some v else None.
Proof.
  assert (((λ i, (i, v)) <$> seqZ 1 n).*1 = seqZ 1 n) as Hfst.
  { rewrite <- list_fmap_compose. rewrite <- (list_fmap_id (seqZ 1 n)) at 2.
    by apply list_fmap_ext. }
  case_decide as Hi.
  - apply elem_of_list_to_map; [rewrite Hfst; apply NoDup_seqZ|].
    apply list_elem_of_fmap. exists i. split; [done|].
    apply elem_of_seqZ. lia.
  - apply not_elem_of_list_to_map. rewrite Hfst.
    intros Hj%elem_of_seqZ. lia.
Qed.

Section Steps.
Context `{!Runtime}.

Lemma add_trace_Ok (z : Lattice) (coloraxis hovertemplate : string) (row col : Z)
    (figure figure' : go.Figure) :
  go.add_trace z coloraxis hovertemplate row col figure = Ok figure' →
  same_frame figure figure'
  ∧ ∃ trace, go.data figure' = go.data figure ++ [trace]
      ∧ go.z trace = z ∧ go.hm_coloraxis trace = coloraxis.
Proof.
  unfold go.add_trace. destruct (go.subplot_grid figure) as [rows cols] eqn:Hgrid.
  case_match; [|done]. intros [= <-]. unfold same_frame. simpl.
  split; [by rewrite Hgrid|]. eauto.
Qed.

Lemma configure_heatmaps_Ok (figure figure' : go.Figure) (rows : list Row) :
  configure_heatmaps figure rows = Ok figure' →
  same_frame figure figure'
  ∧ (Forall (λ trace, go.hm_coloraxis trace = "coloraxis") (go.data figure) →
     Forall (λ trace, go.hm_coloraxis trace = "coloraxis") (go.data figure')).
Proof.
  intros Hrun.
  set (P := λ fig : go.Figure,
    same_frame figure fig
    ∧ (Forall (λ trace, go.hm_coloraxis trace = "coloraxis") (go.data figure) →
       Forall (λ trace, go.hm_coloraxis trace = "coloraxis") (go.data fig))).
  assert (∀ fig z row col fig',
    go.add_trace z "coloraxis" "x: %{y}<br>y: %{x}<br>z: %{z}<extra></extra>"
                 row col fig = Ok fig' → P fig → P fig') as Hstep.
  { intros fig z row col fig' [Hframe (trace & Hdata & _ & Hca)]%add_trace_Ok
      [Hframe0 Hall].
    split.
    - unfold same_frame in *. destruct_and!. repeat split; congruence.
    - intros ?. rewrite Hdata. apply Forall_app. split; [by apply Hall|].
      by constructor. }
  eapply (for_each_invariant P); [|exact Hrun|].
  - intros fig row fig' _ Hrow. eapply (for_each_invariant P); [|exact Hrow].
    intros fig1 [column lattice] fig2 _. apply Hstep.
  - by split.
Qed.

End Steps.

Section Pipeline.
Context `{!Runtime}.

Lemma show_up_factors (series_name : string) (runner : Runner) (plot_title : string)
    (height : option Z) (leyend : string) (attributes_to_consider : option (list string))
    (colorscale : string) :
  show_up series_name runner plot_title height leyend attributes_to_consider colorscale
  = metadata ← get_series_metadata series_name runner;
    show_up_with metadata series_name runner plot_title height leyend
                 attributes_to_consider colorscale.
Proof.
  unfold show_up, show_up_with, process_series.
  by destruct (get_series_metadata series_name runner).
Qed.

Lemma show_up_with_Ok (metadata : SeriesMetadata) (series_name : string)
    (runner : Runner) (plot_title : string) (height : option Z) (leyend : string)
    (attributes_to_consider : option (list string)) (colorscale : string)
    (figure : go.Figure) :
  show_up_with metadata series_name runner plot_title height leyend
               attributes_to_consider colorscale = Ok figure →
  ∃ rows zmin zmax figure0 figure1,
    rows_of runner series_name (params_set runner attributes_to_consider) metadata
      = Ok rows
    ∧ calculate_global_min_max rows = Ok (zmin, zmax)
    ∧ make_figure rows = Ok figure0
    ∧ configure_figure figure0 runner plot_title leyend height rows zmin zmax
                       colorscale = Ok figure1
    ∧ configure_heatmaps figure1 rows = Ok figure.
Proof.
  unfold show_up_with.
  intros (rows & Hrows & ([zmin zmax] & Hrange & Hrest)%bind_Ok)%bind_Ok.
  apply bind_Ok in Hrest as (figure0 & Hmake & (figure1 & Hconf & Hheat)%bind_Ok).
  by exists rows, zmin, zmax, figure0, figure1.
Qed.

Lemma show_up_Ok (series_name : string) (runner : Runner) (plot_title : string)
    (height : option Z) (leyend : string) (attributes_to_consider : option (list string))
    (colorscale : string) (figure : go.Figure) :
  show_up series_name runner plot_title height leyend attributes_to_consider colorscale
    = Ok figure →
  ∃ metadata rows zmin zmax figure0 figure1,
    get_series_metadata series_name runner = Ok metadata
    ∧ rows_of runner series_name (params_set runner attributes_to_consider) metadata
      = Ok rows
    ∧ calculate_global_min_max rows = Ok (zmin, zmax)
    ∧ make_figure rows = Ok figure0
    ∧ configure_figure figure0 runner plot_title leyend height rows zmin zmax
                       colorscale = Ok figure1
    ∧ configure_heatmaps figure1 rows = Ok figure.
Proof.
  rewrite show_up_factors.
  intros (metadata & Hmd & Hwith%show_up_with_Ok)%bind_Ok.
  destruct Hwith as (rows & zmin & zmax & figure0 & figure1 & Hwith).
  by exists metadata, rows, zmin, zmax, figure0, figure1.
Qed.

Lemma row_of_Ok (series_name : string) (params : gset string)
    (metadata : SeriesMetadata) (i : Z) (experiment : Experiment) (row : Row) :
  row_of series_name params metadata i experiment = Ok row →
  ∃ s first last segments,
    Experiment.series experiment !! series_name = Some s
    ∧ getitem_list s 0 = Ok first
    ∧ getitem_list s (-1) = Ok last
    ∧ comprehension
        (λ attribute, v ← getattr experiment attribute; Ok (attribute +:+ "=" +:+ str v))
        (set_iter params) = Ok segments
    ∧ row = {| index := i; first_lattice := first; last_lattice := last;
               title := Py.join "<br>" segments;
               subplot_titles := ["t_0"; "t_" +:+ pretty (len s - 1)];
               tickvals := md_tickvals metadata;
               labelalias := md_labelalias metadata |}.
Proof.
  unfold row_of.
  intros (s & Hs & (first & Hfirst & (last & Hlast & Hrest)%bind_Ok)%bind_Ok)%bind_Ok.
  apply bind_Ok in Hrest as (segments & Hseg & [= <-]).
  exists s, first, last, segments. repeat split; try done.
  unfold getitem_dict in Hs. by destruct (_ !! series_name) as [?|]; simplify_eq.
Qed.

Lemma rows_of_lookup (runner : Runner) (series_name : string) (params : gset string)
    (metadata : SeriesMetadata) (rows : list Row) :
  rows_of runner series_name params metadata = Ok rows →
  length rows = length (experiments runner)
  ∧ ∀ (i : nat) (row : Row), rows !! i = Some row →
      ∃ experiment, experiments runner !! i = Some experiment
        ∧ row_of series_name params metadata (1 + Z.of_nat i) experiment = Ok row.
Proof.
  unfold rows_of. intros Hrows. split.
  - apply comprehension_length in Hrows. by rewrite enumerate_length in Hrows.
  - apply comprehension_Ok in Hrows. intros i row Hrow.
    destruct (Forall2_lookup_r _ _ _ _ _ Hrows Hrow) as ([j experiment] & Hi & Hrun).
    rewrite enumerate_lookup in Hi.
    destruct (experiments runner !! i) as [e|] eqn:He; simplify_eq/=. eauto.
Qed.

Lemma rows_of_tickvals (runner : Runner) (series_name : string) (params : gset string)
    (metadata : SeriesMetadata) (rows : list Row) (row : Row) :
  rows_of runner series_name params metadata = Ok rows →
  row ∈ rows →
  tickvals row = md_tickvals metadata ∧ labelalias row = md_labelalias metadata.
Proof.
  intros [_ Hrows]%rows_of_lookup (i & Hi)%list_elem_of_lookup_1.
  destruct (Hrows i row Hi) as (experiment & _ & Hrow%row_of_Ok).
  destruct Hrow as (s & first & last & segments & _ & _ & _ & _ & ->). done.
Qed.

Lemma make_figure_Ok (rows : list Row) (figure : go.Figure) :
  make_figure rows = Ok figure →
  rows ≠ []
  ∧ go.xaxes figure = list_to_map ((λ i, (i, go.empty_xaxis)) <$> seqZ 1 (len rows * 2))
  ∧ go.yaxes figure = list_to_map ((λ i, (i, go.empty_yaxis)) <$> seqZ 1 (len rows * 2))
  ∧ go.data figure = [].
Proof.
  unfold make_figure.
  intros (titles & _ & (figure0 & Hsub & [= <-])%bind_Ok)%bind_Ok.
  unfold go.make_subplots in Hsub.
  destruct (len rows <=? 0) eqn:Hlen; [done|]. simpl in Hsub.
  injection Hsub as <-. simpl. split; [|done].
  intros ->. unfold len in Hlen. simpl in Hlen. done.
Qed.

Lemma configure_figure_Ok (figure0 : go.Figure) (runner : Runner)
    (plot_title leyend : string) (height : option Z) (rows : list Row)
    (zmin zmax : Z) (colorscale : string) (figure1 : go.Figure) :
  configure_figure figure0 runner plot_title leyend height rows zmin zmax colorscale
    = Ok figure1 →
  ∃ experiment row0 coloraxis,
    experiments runner !! 0%nat = Some experiment
    ∧ rows !! 0%nat = Some row0
    ∧ go.xaxes figure1 =
        (λ _, {| go.x_range := Some (0, Experiment.length experiment - 1);
                 go.x_constrain := Some "domain";
                 go.x_visible := Some false;
                 go.x_autorange := Some go.AutorangeTrue |}) <$> go.xaxes figure0
    ∧ go.yaxes figure1 =
        foldl (λ axes i, go.set_scaleanchor i ("x" +:+ pretty i) axes)
          (go.set_scaleanchor 1 "x"
             ((λ a, {| go.y_constrain := Some "domain";
                       go.y_visible := Some false;
                       go.y_autorange := Some go.AutorangeReversed;
                       go.y_scaleanchor := go.y_scaleanchor a |}) <$> go.yaxes figure0))
          (range_from 2 (len rows * 2 + 1))
    ∧ go.data figure1 = go.data figure0
    ∧ go.height (go.layout figure1) = Some (calculated_height height rows)
    ∧ go.coloraxis (go.layout figure1) = Some coloraxis
    ∧ go.cmin coloraxis = zmin
    ∧ go.cmax coloraxis = zmax
    ∧ F64.linspace_int zmin zmax (length (tickvals row0))
        = Ok (go.cb_tickvals (go.colorbar coloraxis))
    ∧ go.ticktext (go.colorbar coloraxis)
        = F64.format_1f <$> go.cb_tickvals (go.colorbar coloraxis).
Proof.
  unfold configure_figure.
  intros (experiment & He%getitem_list_0
          & (row0 & Hrow0%getitem_list_0
             & (ticks & Hticks & [= <-])%bind_Ok)%bind_Ok)%bind_Ok.
  eexists experiment, row0, _. simpl. repeat split; done.
Qed.

End Pipeline.

(** ** The tick metadata *)

Section Metadata.
Context `{!Runtime}.

(** C7. [max_agent_types] is the greatest value of the parameter set's
    "agent_types" entry when the parameter set has that key; when the key
    is missing the lookup's [KeyError] is caught and the first
    experiment's own [agent_types] is taken, so no [KeyError] reaches the
    caller. *)
Theorem max_agent_types_prefers_parameter_set (runner : Runner) (experiment : Experiment) :
  resolve_max_agent_types runner experiment =
    match parameters (experiment_parameters_set runner) !! "agent_types" with
    | Some l => Py.max l
    | None => Ok (Experiment.agent_types experiment)
    end
  ∧ resolve_max_agent_types runner experiment ≠ Raise KeyError.
Proof.
  unfold resolve_max_agent_types, getitem_dict.
  destruct (parameters _ !! "agent_types") as [l|]; simpl; [|done].
  pose proof (max_not_KeyError l). by destruct (Py.max l) as [|[]].
Qed.

Lemma state_label_Ok (states : list string) (max_agent_types i : Z) :
  0 ≤ i < max_agent_types * len states →
  ∃ state, getitem_list states (i `div` max_agent_types) = Ok state
    ∧ state_label states max_agent_types i
      = Ok (pretty (i `mod` max_agent_types) +:+ " " +:+ state).
Proof.
  intros Hi. pose proof (len_nonneg states) as Hlen.
  assert (0 < max_agent_types) as Hpos by nia.
  assert (0 ≤ i `div` max_agent_types < len states) as Hdiv.
  { split; [apply Z.div_pos; lia|apply Z.div_lt_upper_bound; lia]. }
  destruct (lookup_lt_is_Some_2 states (Z.to_nat (i `div` max_agent_types)))
    as [state Hstate]; [unfold len in Hdiv; lia|].
  exists state. split; [apply getitem_list_nonneg; [lia|done]|].
  unfold state_label, mod_, floordiv.
  rewrite (proj2 (Z.eqb_neq max_agent_types 0)) by lia. simpl.
  by rewrite (getitem_list_nonneg _ _ state) by (done || lia).
Qed.

Lemma state_labels_Ok (states : list string) (A : Z) :
  ∃ d, dict_comprehension Int (state_label states A) (range (A * len states)) = Ok d
    ∧ ∀ i, 0 ≤ i < A * len states →
        ∃ state, getitem_list states (i `div` A) = Ok state
          ∧ getitem d (Int i) = Ok (pretty (i `mod` A) +:+ " " +:+ state).
Proof.
  set (label := λ i, match state_label states A i with Ok s => s | Raise _ => "" end).
  destruct (dict_comprehension_Ok Int (state_label states A) label
              (range (A * len states))) as (d & Hd & Hin & _).
  { intros i Hi%elem_of_seqZ. unfold label.
    destruct (state_label_Ok states A i) as (state & _ & ->); [lia|done]. }
  { by intros i i' _ _ ->%num_eqb_Int. }
  exists d. split; [done|]. intros i Hi.
  destruct (state_label_Ok states A i Hi) as (state & Hstate & Hlabel).
  exists state. split; [done|]. rewrite (Hin i).
  - unfold label. by rewrite Hlabel.
  - apply elem_of_seqZ. lia.
Qed.

Lemma int_labels_Ok (A : Z) :
  ∃ d, dict_comprehension Int (λ i, Ok (pretty i)) (range A) = Ok d
    ∧ ∀ i, 0 ≤ i < A → getitem d (Int i) = Ok (pretty i).
Proof.
  destruct (dict_comprehension_Ok Int (λ i, Ok (pretty i)) pretty (range A))
    as (d & Hd & Hin & _); [done| |].
  { by intros i i' _ _ ->%num_eqb_Int. }
  exists d. split; [done|]. intros i Hi. apply (Hin i), elem_of_seqZ. lia.
Qed.

Lemma float_labels_Ok (start stop : Q) (n : nat) :
  ∃ d, dict_comprehension Float (λ i, Ok (float_str i)) (linspace start stop n) = Ok d
    ∧ ∀ q, q ∈ linspace start stop n → getitem d (Float q) = Ok (float_str q).
Proof.
  destruct (dict_comprehension_Ok Float (λ i, Ok (float_str i)) float_str
              (linspace start stop n)) as (d & Hd & Hin & _); [done| |by exists d].
  intros q q' Hq%linspace_reduced Hq'%linspace_reduced Heq%Qeq_bool_iff.
  simpl in Heq. apply Qred_complete in Heq. congruence.
Qed.

(** C2. For a series whose metadata has "states", with [A] the resolved
    [max_agent_types]: the tick values are the integers of
    [range(A * len(states))], [A * len(states)] of them when [A] is not
    negative, and tick [i] is labelled with [i mod A], a space, and
    [states[i div A]]. *)
Theorem per_state_ticks_and_labels (series_name : string) (runner : Runner)
    (experiment : Experiment) (metadata : gmap string (list string))
    (states : list string) (A : Z) :
  getitem_list (experiments runner) 0 = Ok experiment →
  resolve_max_agent_types runner experiment = Ok A →
  getattr_series_metadata experiment series_name = Ok metadata →
  metadata !! "states" = Some states →
  ∃ md, get_series_metadata series_name runner = Ok md
    ∧ md_tickvals md = Int <$> seqZ 0 (A * len states)
    ∧ (0 ≤ A → len (md_tickvals md) = A * len states)
    ∧ ∀ i, 0 ≤ i < A * len states →
        ∃ state, getitem_list states (i `div` A) = Ok state
          ∧ getitem (md_labelalias md) (Int i)
            = Ok (pretty (i `mod` A) +:+ " " +:+ state).
Proof.
  intros Hexp HA Hmeta Hstates.
  destruct (state_labels_Ok states A) as (d & Hd & Hlabels).
  unfold get_series_metadata. rewrite Hexp. cbn [mbind result_bind].
  rewrite HA. cbn [mbind result_bind]. rewrite Hmeta. cbn [mbind result_bind].
  unfold try_states, getitem_dict. rewrite Hstates, Hd.
  eexists. split; [done|]. cbn [md_tickvals md_labelalias].
  split; [done|]. split; [|done].
  intros HA0. unfold len at 1, range. rewrite length_fmap, length_seqZ.
  pose proof (len_nonneg states). nia.
Qed.


End Metadata.

(** ** Row titles *)

Section Titles.
Context `{!Runtime}.

Lemma segments_Ok (experiment : Experiment) (order : list string)
    (segments : list string) :
  comprehension
    (λ attribute, v ← getattr experiment attribute; Ok (attribute +:+ "=" +:+ str v))
    order = Ok segments →
  ∃ values, Forall2 (λ attribute v, getattr experiment attribute = Ok v) order values
    ∧ segments = zip_with (λ attribute v, attribute +:+ "=" +:+ str v) order values.
Proof.
  intros Hseg%comprehension_Ok.
  induction Hseg as [|attribute segment order segments Hhead _ (values & Hvalues & ->)].
  - exists []. split; [constructor|done].
  - apply bind_Ok in Hhead as (v & Hv & [= <-]).
    exists (v :: values). split; [by constructor|done].
Qed.

Lemma params_set_order (runner : Runner) (attributes_to_consider : option (list string)) :
  NoDup (set_iter (params_set runner attributes_to_consider))
  ∧ ∀ p, p ∈ set_iter (params_set runner attributes_to_consider)
         ↔ p ∈ default [] attributes_to_consider
           ∨ p ∈ parameters_to_vary (experiment_parameters_set runner).
Proof.
  split.
  - rewrite set_iter_perm. apply NoDup_elements.
  - intros p. rewrite set_iter_perm, elem_of_elements. unfold params_set.
    rewrite elem_of_union.
    destruct attributes_to_consider as [[|a l]|]; cbn -[list_to_set];
      by rewrite elem_of_list_to_set.
Qed.

(** C6. The title of the row of the [i]-th experiment is the "<br>"-join
    of one segment "param=value" per parameter, where the parameters,
    each taken once and in the order the set is iterated, are those of
    the explicit list or of the collection's [parameters_to_vary], and
    the value is the experiment's attribute of that name. *)
Theorem row_title_one_segment_per_parameter (runner : Runner) (series_name : string)
    (attributes_to_consider : option (list string)) (rows : list Row)
    (i : nat) (row : Row) :
  process_series runner series_name (params_set runner attributes_to_consider)
    = Ok rows →
  rows !! i = Some row →
  ∃ experiment order values,
    experiments runner !! i = Some experiment
    ∧ NoDup order
    ∧ (∀ p, p ∈ order ↔ p ∈ default [] attributes_to_consider
                         ∨ p ∈ parameters_to_vary (experiment_parameters_set runner))
    ∧ Forall2 (λ attribute v, getattr experiment attribute = Ok v) order values
    ∧ title row
      = Py.join "<br>" (zip_with (λ attribute v, attribute +:+ "=" +:+ str v)
                                 order values).
Proof.
  unfold process_series. intros (metadata & _ & Hrows)%bind_Ok Hrow.
  destruct (rows_of_lookup _ _ _ _ _ Hrows) as [_ Hlookup].
  destruct (Hlookup i row Hrow) as (experiment & He & Hrun%row_of_Ok).
  destruct Hrun as (s & first & last & segments & _ & _ & _ & Hseg & ->).
  apply segments_Ok in Hseg as (values & Hvalues & ->).
  destruct (params_set_order runner attributes_to_consider) as [Hnodup Hmem].
  by exists experiment, (set_iter (params_set runner attributes_to_consider)), values.
Qed.

(** C10. An explicitly empty [attributes_to_consider] renders exactly what
    omitting the argument renders: in both cases the title parameters are
    the collection's [parameters_to_vary]. *)
Theorem empty_attributes_same_as_omitted (series_name : string) (runner : Runner)
    (plot_title : string) (height : option Z) (leyend colorscale : string) :
  show_up series_name runner plot_title height leyend (Some []) colorscale
    = show_up series_name runner plot_title height leyend None colorscale
  ∧ params_set runner (Some []) = parameters_to_vary (experiment_parameters_set runner)
  ∧ params_set runner None = parameters_to_vary (experiment_parameters_set runner).
Proof.
  split; [done|]. unfold params_set. simpl. split; apply (left_id_L ∅ (∪)).
Qed.

End Titles.

(** ** The global colour range *)

Lemma elem_of_sum_lists {A} (ll : list (list A)) (x : A) :
  x ∈ sum_lists ll ↔ ∃ l, x ∈ l ∧ l ∈ ll.
Proof.
  unfold sum_lists. induction ll as [|l ll IH]; simpl.
  - split; [by intros ?%elem_of_nil|by intros (l & _ & ?%elem_of_nil)].
  - rewrite elem_of_app, IH. split.
    + intros [Hx|(l' & Hx & Hl')].
      * exists l. split; [done|apply list_elem_of_here].
      * exists l'. split; [done|by apply list_elem_of_further].
    + intros (l' & Hx & [->|Hl']%elem_of_cons); [by left|right; eauto].
Qed.

Lemma all_values_from (acc : list Z) (rows : list Row) :
  foldl (λ acc row, (acc ++ sum_lists (first_lattice row)) ++ sum_lists (last_lattice row))
        acc rows
  = acc ++ (row ← rows; sum_lists (first_lattice row) ++ sum_lists (last_lattice row)).
Proof.
  revert acc. induction rows as [|row rows IH]; intros acc; simpl.
  - by rewrite app_nil_r.
  - rewrite IH. by rewrite <- !app_assoc.
Qed.

Lemma elem_of_all_values (rows : list Row) (v : Z) :
  v ∈ all_values rows ↔ snapshot_value rows v.
Proof.
  unfold all_values, snapshot_value. rewrite all_values_from. simpl.
  rewrite list_elem_of_bind. split.
  - intros (row & [Hv|Hv]%elem_of_app & Hrow);
      apply elem_of_sum_lists in Hv as (cells & Hv & Hcells);
      exists row, cells; eauto.
  - intros (row & cells & Hrow & [Hcells|Hcells] & Hv); exists row;
      (split; [|done]); apply elem_of_app; [left|right];
      apply elem_of_sum_lists; eauto.
Qed.

Lemma calculate_global_min_max_Ok (rows : list Row) (zmin zmax : Z) :
  calculate_global_min_max rows = Ok (zmin, zmax) ↔
  snapshot_value rows zmin ∧ snapshot_value rows zmax
  ∧ ∀ v, snapshot_value rows v → zmin ≤ v ≤ zmax.
Proof.
  unfold calculate_global_min_max. rewrite bind_Ok. split.
  - intros (_min & [Hmin Hle]%min_Ok & (_max & [Hmax Hge]%max_Ok & [= <- <-])%bind_Ok).
    rewrite <- !elem_of_all_values. repeat split; try done.
    + apply Hle. by apply elem_of_all_values.
    + apply Hge. by apply elem_of_all_values.
  - intros (Hmin & Hmax & Hall). exists zmin. split.
    + apply min_Ok. split; [by apply elem_of_all_values|].
      intros v Hv%elem_of_all_values. by apply Hall.
    + apply bind_Ok. exists zmax. split; [|done].
      apply max_Ok. split; [by apply elem_of_all_values|].
      intros v Hv%elem_of_all_values. by apply Hall.
Qed.

(** The range is defined as soon as some lattice has a cell. *)
Lemma calculate_global_min_max_total (rows : list Row) (v : Z) :
  snapshot_value rows v → ∃ zmin zmax, calculate_global_min_max rows = Ok (zmin, zmax).
Proof.
  intros Hv%elem_of_all_values. unfold calculate_global_min_max.
  destruct (all_values rows) as [|x l]; [by apply elem_of_nil in Hv|].
  simpl. eauto.
Qed.

(** The example of the specification: snapshots [[0,1],[2,3]] and
    [[5,6],[7,8]] have global minimum 0 and maximum 8. *)
Example calculate_global_min_max_example :
  calculate_global_min_max
    [{| index := 1; first_lattice := [[0; 1]; [2; 3]]; last_lattice := [[5; 6]; [7; 8]];
        title := ""; subplot_titles := ["t_0"; "t_1"]; tickvals := [];
        labelalias := [] |}]
  = Ok (0, 8).
Proof. reflexivity. Qed.

Section GlobalRange.
Context `{!Runtime}.

Lemma configure_heatmaps_cells (figure figure' : go.Figure) (rows : list Row) :
  configure_heatmaps figure rows = Ok figure' →
  go.z <$> go.data figure'
  = (go.z <$> go.data figure) ++ (row ← rows; [first_lattice row; last_lattice row]).
Proof.
  unfold configure_heatmaps. revert figure.
  induction rows as [|row rows IH]; intros figure; simpl.
  - intros [= <-]. by rewrite app_nil_r.
  - intros (fig2 & (fig1 & Hfirst & (fig2' & Hlast & [= ->])%bind_Ok)%bind_Ok & Hrest)%bind_Ok.
    apply IH in Hrest. rewrite Hrest.
    apply add_trace_Ok in Hfirst as (_ & tr1 & Hd1 & Hz1 & _).
    apply add_trace_Ok in Hlast as (_ & tr2 & Hd2 & Hz2 & _).
    rewrite Hd2, Hd1, !fmap_app. simpl. rewrite Hz1, Hz2.
    by rewrite <- !app_assoc.
Qed.

(** C1. In every figure [show_up] renders, the pair that
    [calculate_global_min_max] returns is the least and the greatest cell
    over the first and last lattices of all rows, it is the [cmin] and
    [cmax] of the figure's one colour axis, and every heatmap of the grid
    (the first and last lattice of every row) is bound to that colour
    axis. *)
Theorem global_range_is_shared_color_domain (series_name : string) (runner : Runner)
    (plot_title : string) (height : option Z) (leyend : string)
    (attributes_to_consider : option (list string)) (colorscale : string)
    (figure : go.Figure) :
  show_up series_name runner plot_title height leyend attributes_to_consider colorscale
    = Ok figure →
  ∃ rows zmin zmax coloraxis,
    process_series runner series_name (params_set runner attributes_to_consider)
      = Ok rows
    ∧ calculate_global_min_max rows = Ok (zmin, zmax)
    ∧ snapshot_value rows zmin
    ∧ snapshot_value rows zmax
    ∧ (∀ v, snapshot_value rows v → zmin ≤ v ≤ zmax)
    ∧ go.coloraxis (go.layout figure) = Some coloraxis
    ∧ go.cmin coloraxis = zmin
    ∧ go.cmax coloraxis = zmax
    ∧ go.z <$> go.data figure = (row ← rows; [first_lattice row; last_lattice row])
    ∧ Forall (λ trace, go.hm_coloraxis trace = "coloraxis") (go.data figure).
Proof.
  intros (metadata & rows & zmin & zmax & figure0 & figure1 & Hmd & Hrows & Hrange
          & Hmake & Hconf & Hheat)%show_up_Ok.
  destruct (configure_figure_Ok _ _ _ _ _ _ _ _ _ _ Hconf)
    as (experiment & row0 & coloraxis & _ & _ & _ & _ & Hdata & _ & Hca & Hcmin & Hcmax & _).
  destruct (make_figure_Ok _ _ Hmake) as (_ & _ & _ & Hdata0).
  destruct (configure_heatmaps_Ok _ _ _ Hheat) as [(_ & _ & _ & _ & Hlayout) Htraces].
  pose proof (proj1 (calculate_global_min_max_Ok _ _ _) Hrange) as (Hmin & Hmax & Hall).
  exists rows, zmin, zmax, coloraxis. repeat split; try done.
  - unfold process_series. by rewrite Hmd.
  - by apply Hall.
  - by apply Hall.
  - by rewrite Hlayout.
  - rewrite (configure_heatmaps_cells _ _ _ Hheat), Hdata, Hdata0. done.
  - apply Htraces. rewrite Hdata, Hdata0. constructor.
Qed.

End GlobalRange.

(** ** The colour bar, the height and the axes of the rendered figure *)

Section Figure.
Context `{!Runtime}.

(** C4. Whatever branch produced the metadata, the colour bar of a
    rendered figure has as many tick positions and as many tick labels as
    the metadata has tick values; the positions are the float64 points of
    [np.linspace] from the global minimum to the global maximum at that
    count, the last of them the maximum itself, and the label of a
    position is that float64 with one decimal, the nearest tenth of its
    value. *)
Theorem colorbar_ticks_match_metadata_count (series_name : string) (runner : Runner)
    (plot_title : string) (height : option Z) (leyend : string)
    (attributes_to_consider : option (list string)) (colorscale : string)
    (figure : go.Figure) :
  show_up series_name runner plot_title height leyend attributes_to_consider colorscale
    = Ok figure →
  ∃ metadata rows zmin zmax coloraxis start stop,
    get_series_metadata series_name runner = Ok metadata
    ∧ process_series runner series_name (params_set runner attributes_to_consider)
      = Ok rows
    ∧ calculate_global_min_max rows = Ok (zmin, zmax)
    ∧ go.coloraxis (go.layout figure) = Some coloraxis
    ∧ length (go.ticktext (go.colorbar coloraxis)) = length (md_tickvals metadata)
    ∧ length (go.cb_tickvals (go.colorbar coloraxis)) = length (md_tickvals metadata)
    ∧ F64.of_int zmin = Ok start
    ∧ F64.of_int zmax = Ok stop
    ∧ go.cb_tickvals (go.colorbar coloraxis)
      = F64.linspace start stop (length (md_tickvals metadata))
    ∧ ((2 ≤ length (md_tickvals metadata))%nat →
       last (go.cb_tickvals (go.colorbar coloraxis)) = Some stop)
    ∧ ∀ (i : nat) (val : F64.float),
        go.cb_tickvals (go.colorbar coloraxis) !! i = Some val →
        go.ticktext (go.colorbar coloraxis) !! i = Some (F64.format_1f val)
        ∧ shows_one_decimal val (F64.format_1f val).
Proof.
  intros (metadata & rows & zmin & zmax & figure0 & figure1 & Hmd & Hrows & Hrange
          & Hmake & Hconf & Hheat)%show_up_Ok.
  destruct (configure_figure_Ok _ _ _ _ _ _ _ _ _ _ Hconf)
    as (experiment & row0 & coloraxis & _ & Hrow0 & _ & _ & _ & _ & Hca & _ & _
        & Hvals & Htext).
  destruct (configure_heatmaps_Ok _ _ _ Hheat) as [(_ & _ & _ & _ & Hlayout) _].
  destruct (rows_of_tickvals _ _ _ _ _ row0 Hrows) as [Hticks _].
  { by eapply list_elem_of_lookup_2. }
  rewrite Hticks in Hvals.
  apply linspace_int_Ok in Hvals as (start & stop & Hstart & Hstop & Hvals).
  exists metadata, rows, zmin, zmax, coloraxis, start, stop.
  split_and!; try done.
  - unfold process_series. by rewrite Hmd.
  - by rewrite Hlayout.
  - by rewrite Htext, length_fmap, Hvals, F64_linspace_length.
  - by rewrite Hvals, F64_linspace_length.
  - intros Hn. rewrite Hvals. by apply F64_linspace_last.
  - intros i val Hval. split; [|apply format_1f_shows_one_decimal].
    by rewrite Htext, list_lookup_fmap, Hval.
Qed.

(** C5, as the code has it. Without a height, or with the height 0, the
    figure is [max(600, 300 * row_count)] high, one row per experiment;
    any other explicit height is the figure's height. *)
Theorem height_default_unless_nonzero (series_name : string) (runner : Runner)
    (plot_title : string) (height : option Z) (leyend : string)
    (attributes_to_consider : option (list string)) (colorscale : string)
    (figure : go.Figure) :
  show_up series_name runner plot_title height leyend attributes_to_consider colorscale
    = Ok figure →
  (height = None ∨ height = Some 0 →
     go.height (go.layout figure)
     = Some (Z.max 600 (300 * len (experiments runner))))
  ∧ (∀ h, height = Some h → h ≠ 0 → go.height (go.layout figure) = Some h).
Proof.
  intros (metadata & rows & zmin & zmax & figure0 & figure1 & Hmd & Hrows & Hrange
          & Hmake & Hconf & Hheat)%show_up_Ok.
  destruct (configure_figure_Ok _ _ _ _ _ _ _ _ _ _ Hconf)
    as (experiment & row0 & coloraxis & _ & _ & _ & _ & _ & Hheight & _).
  destruct (configure_heatmaps_Ok _ _ _ Hheat) as [(_ & _ & _ & _ & Hlayout) _].
  destruct (rows_of_lookup _ _ _ _ _ Hrows) as [Hlen _].
  rewrite Hlayout, Hheight. unfold calculated_height, len. rewrite Hlen. split.
  - by intros [->| ->].
  - intros h -> Hh. by rewrite (proj2 (Z.eqb_neq h 0) Hh).
Qed.

Lemma set_scaleanchor_reversed (n : Z) (anchor : string) (axes : gmap Z go.YAxis)
    (i : Z) :
  (∃ axis, axes !! i = Some axis ∧ go.y_autorange axis = Some go.AutorangeReversed) →
  ∃ axis, go.set_scaleanchor n anchor axes !! i = Some axis
    ∧ go.y_autorange axis = Some go.AutorangeReversed.
Proof.
  intros (axis & Hi & Hrev). unfold go.set_scaleanchor.
  destruct (decide (n = i)) as [->|Hne].
  - rewrite lookup_insert_eq, Hi. simpl. eauto.
  - rewrite lookup_insert_ne by done. eauto.
Qed.

Lemma scaleanchors_reversed (anchor : Z → string) (l : list Z)
    (axes : gmap Z go.YAxis) (i : Z) :
  (∃ axis, axes !! i = Some axis ∧ go.y_autorange axis = Some go.AutorangeReversed) →
  ∃ axis, foldl (λ axes j, go.set_scaleanchor j (anchor j) axes) axes l !! i = Some axis
    ∧ go.y_autorange axis = Some go.AutorangeReversed.
Proof.
  revert axes. induction l as [|j l IH]; intros axes Hrev; simpl; [done|].
  by apply IH, set_scaleanchor_reversed.
Qed.

(** C8. In every rendered figure, each of the [2 * row_count] subplots
    (one row per experiment) has its x axis set to the range
    [[0, length - 1]] of the first experiment, and its y axis set to run
    reversed. *)
Theorem axes_range_and_direction (series_name : string) (runner : Runner)
    (plot_title : string) (height : option Z) (leyend : string)
    (attributes_to_consider : option (list string)) (colorscale : string)
    (figure : go.Figure) :
  show_up series_name runner plot_title height leyend attributes_to_consider colorscale
    = Ok figure →
  ∃ experiment,
    getitem_list (experiments runner) 0 = Ok experiment
    ∧ ∀ i, 1 ≤ i ≤ 2 * len (experiments runner) →
        ∃ xaxis yaxis,
          go.xaxes figure !! i = Some xaxis
          ∧ go.x_range xaxis = Some (0, Experiment.length experiment - 1)
          ∧ go.yaxes figure !! i = Some yaxis
          ∧ go.y_autorange yaxis = Some go.AutorangeReversed.
Proof.
  intros (metadata & rows & zmin & zmax & figure0 & figure1 & Hmd & Hrows & Hrange
          & Hmake & Hconf & Hheat)%show_up_Ok.
  destruct (configure_figure_Ok _ _ _ _ _ _ _ _ _ _ Hconf)
    as (experiment & row0 & coloraxis & He & _ & Hx & Hy & _).
  destruct (configure_heatmaps_Ok _ _ _ Hheat) as [(_ & _ & Hxaxes & Hyaxes & _) _].
  destruct (make_figure_Ok _ _ Hmake) as (_ & Hx0 & Hy0 & _).
  destruct (rows_of_lookup _ _ _ _ _ Hrows) as [Hlen _].
  exists experiment. split; [by apply getitem_list_0|].
  intros i Hi.
  assert (1 ≤ i ≤ len rows * 2) as Hi' by (unfold len in *; lia).
  assert (∃ yaxis, go.yaxes figure !! i = Some yaxis
            ∧ go.y_autorange yaxis = Some go.AutorangeReversed) as (yaxis & Hyi & Hrev).
  { rewrite Hyaxes, Hy.
    apply (scaleanchors_reversed (λ j, "x" +:+ pretty j)), set_scaleanchor_reversed.
    rewrite Hy0, lookup_fmap, seqZ_axes_lookup, decide_True by done.
    simpl. eauto. }
  eexists _, yaxis. split; [|split; [|done]].
  - rewrite Hxaxes, Hx, Hx0, lookup_fmap, seqZ_axes_lookup, decide_True by done.
    simpl. done.
  - done.
Qed.

End Figure.

(** ** What the figure does not depend on *)

Section Independence.
Context `{!Runtime}.

Lemma rows_of_metadata (runner : Runner) (series_name : string) (params : gset string)
    (metadata1 metadata2 : SeriesMetadata) :
  rows_of runner series_name params metadata2
  = match rows_of runner series_name params metadata1 with
    | Ok rows => Ok (with_metadata metadata2 <$> rows)
    | Raise e => Raise e
    end.
Proof.
  unfold rows_of. apply comprehension_through. intros [i experiment].
  unfold row_of. destruct (getitem_dict _ _) as [s|]; simpl; [|done].
  destruct (getitem_list s 0); simpl; [|done].
  destruct (getitem_list s (-1)); simpl; [|done].
  by destruct (comprehension _ _).
Qed.

Lemma all_values_with_metadata (metadata : SeriesMetadata) (rows : list Row) :
  all_values (with_metadata metadata <$> rows) = all_values rows.
Proof.
  unfold all_values. rewrite !all_values_from. f_equal.
  induction rows as [|row rows IH]; [done|].
  by rewrite fmap_cons, !bind_cons, IH.
Qed.

Lemma make_figure_with_metadata (metadata : SeriesMetadata) (rows : list Row) :
  make_figure (with_metadata metadata <$> rows) = make_figure rows.
Proof.
  unfold make_figure.
  assert (comprehension (λ '(row, i), getitem_list (subplot_titles row) i)
            (row ← with_metadata metadata <$> rows; i ← range 2; [(row, i)])
          = comprehension (λ '(row, i), getitem_list (subplot_titles row) i)
              (row ← rows; i ← range 2; [(row, i)])) as ->.
  { induction rows as [|row rows IH]; [done|].
    rewrite fmap_cons, !bind_cons, !comprehension_app, IH. done. }
  rewrite <- list_fmap_compose.
  unfold len. rewrite length_fmap. done.
Qed.

Lemma configure_heatmaps_with_metadata (metadata : SeriesMetadata)
    (figure : go.Figure) (rows : list Row) :
  configure_heatmaps figure (with_metadata metadata <$> rows)
  = configure_heatmaps figure rows.
Proof.
  unfold configure_heatmaps. revert figure.
  induction rows as [|row rows IH]; intros figure; simpl; [done|].
  destruct (go.add_trace (first_lattice row) _ _ _ _ _) as [figure1|]; simpl; [|done].
  destruct (go.add_trace (last_lattice row) _ _ _ _ _) as [figure2|]; simpl; [|done].
  apply IH.
Qed.

Lemma configure_figure_with_metadata (metadata1 metadata2 : SeriesMetadata)
    (figure : go.Figure) (runner : Runner) (plot_title leyend : string)
    (height : option Z) (rows : list Row) (zmin zmax : Z) (colorscale : string) :
  length (md_tickvals metadata1) = length (md_tickvals metadata2) →
  configure_figure figure runner plot_title leyend height
                   (with_metadata metadata1 <$> rows) zmin zmax colorscale
  = configure_figure figure runner plot_title leyend height
                     (with_metadata metadata2 <$> rows) zmin zmax colorscale.
Proof.
  intros Hlen. unfold configure_figure, calculated_height, len.
  rewrite !length_fmap.
  destruct (getitem_list (experiments runner) 0); simpl; [|done].
  destruct rows as [|row rows]; simpl; [done|].
  unfold getitem_list. simpl. by rewrite Hlen.
Qed.

(** C9. The figure of a render does not depend on the tick values and
    tick labels of the metadata, only on how many tick values there are:
    two metadata with equally many tick values give the same outcome of
    [show_up] from the point where the metadata is known, the same figure
    or the same exception; so a render whose resolved metadata is the
    first gives what it would give had the second been resolved. *)
Theorem figure_depends_on_tick_count_only (metadata1 metadata2 : SeriesMetadata)
    (series_name : string) (runner : Runner) (plot_title : string)
    (height : option Z) (leyend : string)
    (attributes_to_consider : option (list string)) (colorscale : string) :
  length (md_tickvals metadata1) = length (md_tickvals metadata2) →
  show_up_with metadata1 series_name runner plot_title height leyend
               attributes_to_consider colorscale
  = show_up_with metadata2 series_name runner plot_title height leyend
                 attributes_to_consider colorscale
  ∧ (get_series_metadata series_name runner = Ok metadata1 →
     show_up series_name runner plot_title height leyend attributes_to_consider
             colorscale
     = show_up_with metadata2 series_name runner plot_title height leyend
                    attributes_to_consider colorscale).
Proof.
  intros Hlen.
  assert (show_up_with metadata1 series_name runner plot_title height leyend
                       attributes_to_consider colorscale
          = show_up_with metadata2 series_name runner plot_title height leyend
                         attributes_to_consider colorscale) as Hsame.
  { unfold show_up_with.
    rewrite (rows_of_metadata _ _ _ metadata1 metadata2).
    rewrite (rows_of_metadata _ _ _ metadata1 metadata1) at 1.
    destruct (rows_of runner series_name _ metadata1) as [rows|e]; simpl; [|done].
    unfold calculate_global_min_max. rewrite !all_values_with_metadata.
    destruct (Py.min (all_values rows)) as [zmin|]; simpl; [|done].
    destruct (Py.max (all_values rows)) as [zmax|]; simpl; [|done].
    rewrite !make_figure_with_metadata.
    destruct (make_figure rows) as [figure0|]; simpl; [|done].
    rewrite (configure_figure_with_metadata metadata1 metadata2) by done.
    destruct (configure_figure _ _ _ _ _ _ _ _ _) as [figure1|]; simpl; [|done].
    by rewrite !configure_heatmaps_with_metadata. }
  split; [done|]. intros Hmd. by rewrite show_up_factors, Hmd.
Qed.

End Independence.

(** ** The rows and the global range of a preparable input *)

Section Totality.
Context `{!Runtime}.

Lemma row_of_total (series_name : string) (runner : Runner) (params : gset string)
    (metadata : SeriesMetadata) (i : Z) (experiment : Experiment) :
  preparable series_name runner params →
  experiment ∈ experiments runner →
  ∃ row, row_of series_name params metadata i experiment = Ok row.
Proof.
  intros (Hall & _) Hin. destruct (Hall experiment Hin) as [(s & Hs & Hne) Hattrs].
  unfold row_of, getitem_dict. rewrite Hs. cbn [mbind result_bind].
  destruct s as [|first s]; [done|].
  rewrite (getitem_list_nonneg _ 0 first) by done. cbn [mbind result_bind].
  destruct (lookup_lt_is_Some_2 (first :: s) (Z.to_nat (len (first :: s) + -1)))
    as [last Hlast]; [unfold len; cbn [length]; lia|].
  assert (getitem_list (first :: s) (-1) = Ok last) as ->.
  { unfold getitem_list. cbn [Z.ltb Z.compare].
    assert ((len (first :: s) + -1 <? 0) = false) as ->
      by (apply Z.ltb_ge; unfold len; cbn [length]; lia).
    by rewrite Hlast. }
  cbn [mbind result_bind].
  destruct (comprehension_total
    (λ attribute, v ← getattr experiment attribute; Ok (attribute +:+ "=" +:+ str v))
    (set_iter params)) as [segments ->]; [|simpl; eauto].
  intros p Hp. rewrite set_iter_perm, elem_of_elements in Hp.
  destruct (Hattrs p Hp) as [v Hv]. unfold getattr. rewrite Hv. simpl. eauto.
Qed.

Lemma rows_of_total (series_name : string) (runner : Runner) (params : gset string)
    (metadata : SeriesMetadata) :
  preparable series_name runner params →
  ∃ rows, rows_of runner series_name params metadata = Ok rows.
Proof.
  intros Hwf. unfold rows_of. apply comprehension_total.
  intros [i experiment] [Hin _]%elem_of_enumerate. by eapply row_of_total.
Qed.

Lemma snapshot_value_of_preparable (series_name : string) (runner : Runner)
    (params : gset string) (metadata : SeriesMetadata) (rows : list Row) :
  preparable series_name runner params →
  rows_of runner series_name params metadata = Ok rows →
  ∃ v, snapshot_value rows v.
Proof.
  intros (_ & experiment & s & snapshot & cells & v & Hin & Hs & Hsnap & Hcells & Hv)
    Hrows.
  apply list_elem_of_lookup_1 in Hin as [i Hi].
  destruct (rows_of_lookup _ _ _ _ _ Hrows) as [Hlen Hlookup].
  destruct (lookup_lt_is_Some_2 rows i) as [row Hrow].
  { rewrite Hlen. by eapply lookup_lt_Some. }
  destruct (Hlookup i row Hrow) as (experiment' & Hi' & Hrun%row_of_Ok).
  assert (experiment' = experiment) as -> by congruence.
  destruct Hrun as (s' & first & last & segments & Hs' & Hfirst & Hlast & _ & ->).
  assert (s' = s) as -> by congruence.
  exists v. eexists _, cells. split; [by eapply list_elem_of_lookup_2|].
  split; [|done]. simpl. destruct Hsnap as [Hsnap|Hsnap]; [left|right]; congruence.
Qed.

(** X15. Once the metadata resolves, the rows and the global range of
    [show_up] are produced for every preparable input: when every
    experiment has the series with a snapshot and every title parameter as
    an attribute, and some first or last snapshot has a cell,
    [process_series] returns one row per experiment and
    [calculate_global_min_max] returns the least and the greatest of
    their cells; neither raises. *)
Theorem rows_and_range_total (series_name : string) (runner : Runner)
    (attributes_to_consider : option (list string)) (metadata : SeriesMetadata) :
  get_series_metadata series_name runner = Ok metadata →
  preparable series_name runner (params_set runner attributes_to_consider) →
  ∃ rows zmin zmax,
    process_series runner series_name (params_set runner attributes_to_consider)
      = Ok rows
    ∧ length rows = length (experiments runner)
    ∧ calculate_global_min_max rows = Ok (zmin, zmax)
    ∧ is_minimum zmin (all_values rows)
    ∧ is_maximum zmax (all_values rows).
Proof.
  intros Hmd Hwf.
  destruct (rows_of_total _ _ _ metadata Hwf) as [rows Hrows].
  destruct (snapshot_value_of_preparable _ _ _ _ _ Hwf Hrows) as [v Hv].
  destruct (calculate_global_min_max_total rows v Hv) as (zmin & zmax & Hrange).
  exists rows, zmin, zmax. unfold process_series. rewrite Hmd.
  cbn [mbind result_bind]. split; [done|].
  split; [by destruct (rows_of_lookup _ _ _ _ _ Hrows)|].
  split; [done|].
  pose proof Hrange as Hrange'. unfold calculate_global_min_max in Hrange'.
  apply bind_Ok in Hrange' as (lo & Hlo & (hi & Hhi & [= <- <-])%bind_Ok).
  split; [by apply min_Ok|by apply max_Ok].
Qed.

End Totality.


(** ** How [get_series_metadata] ends *)

Section Outcome.
Context `{!Runtime}.

Lemma resolve_max_agent_types_eq (runner : Runner) (experiment : Experiment) :
  resolve_max_agent_types runner experiment
  = match parameters (experiment_parameters_set runner) !! "agent_types" with
    | Some [] => Raise ValueError
    | Some (x :: l) => Ok (foldl Z.max x l)
    | None => Ok (Experiment.agent_types experiment)
    end.
Proof.
  unfold resolve_max_agent_types, getitem_dict.
  by destruct (parameters _ !! "agent_types") as [[|x l]|].
Qed.

(** The outcome of the [try]/[except]/[finally] block, once the metadata
    dict is at hand. *)
Lemma metadata_block_outcome (series_name : string) (runner : Runner)
    (experiment : Experiment) (metadata : gmap string (list string)) (A : Z) :
  let '(locals, pending) := try_states metadata A in
  let '(locals, pending) :=
    match pending with
    | Some KeyError => except_KeyError runner experiment series_name A locals
    | _ => (locals, pending)
    end in
  (is_Some (metadata !! "states") ∨ first_snapshot_cells series_name experiment ≠ [] →
     ∃ md, finally_return locals = Ok md)
  ∧ (metadata !! "states" = None → first_snapshot_cells series_name experiment = [] →
     finally_return locals = Raise UnboundLocalError).
Proof.
  unfold try_states, getitem_dict.
  destruct (metadata !! "states") as [states|] eqn:Hstates.
  - destruct (state_labels_Ok states A) as (d & -> & _). simpl.
    split; [eauto|done].
  - unfold except_KeyError, getitem_dict, first_snapshot_cells.
    destruct (Experiment.series experiment !! series_name) as [[|snapshot s]|].
    + simpl. split; [by intros [[? [=]]|?]|done].
    + cbn [mbind result_bind].
      rewrite (getitem_list_nonneg _ 0 snapshot) by done. cbn [mbind result_bind].
      destruct (sum_lists snapshot) as [|x l].
      * simpl. split; [by intros [[? [=]]|?]|done].
      * cbn [Py.min Py.max mbind result_bind mret result_ret].
        destruct (_ >? A).
        -- destruct (float_labels_Ok (inject_Z (foldl Z.min x l))
                       (inject_Z (foldl Z.max x l + 1))
                       (8 * length (experiments runner))) as (d & -> & _).
           cbn [finally_return l_tickvals l_labelalias]. split; [eauto|done].
        -- destruct (int_labels_Ok A) as (d & -> & _).
           cbn [finally_return l_tickvals l_labelalias]. split; [eauto|done].
    + simpl. split; [by intros [[? [=]]|?]|done].
Qed.

(** Every way [get_series_metadata] can end, by what it finds. *)
Lemma get_series_metadata_outcome (series_name : string) (runner : Runner) :
  match experiments runner with
  | [] => get_series_metadata series_name runner = Raise IndexError
  | experiment :: _ =>
      match parameters (experiment_parameters_set runner) !! "agent_types" with
      | Some [] => get_series_metadata series_name runner = Raise ValueError
      | _ =>
          match Experiment.series_metadata experiment !! series_name with
          | None => get_series_metadata series_name runner = Raise AttributeError
          | Some metadata =>
              match metadata !! "states", first_snapshot_cells series_name experiment with
              | None, [] =>
                  get_series_metadata series_name runner = Raise UnboundLocalError
              | _, _ => ∃ md, get_series_metadata series_name runner = Ok md
              end
          end
      end
  end.
Proof.
  unfold get_series_metadata.
  destruct (experiments runner) as [|experiment es] eqn:Hexps; [done|].
  rewrite (getitem_list_nonneg _ 0 experiment) by done. cbn [mbind result_bind].
  rewrite resolve_max_agent_types_eq.
  assert (∀ A : Z,
    match Experiment.series_metadata experiment !! series_name with
    | Some metadata =>
        match metadata !! "states", first_snapshot_cells series_name experiment with
        | None, [] =>
            (metadata ← getattr_series_metadata experiment series_name;
             let '(locals, pending) := try_states metadata A in
             let '(locals, pending) :=
               match pending with
               | Some KeyError =>
                   except_KeyError runner experiment series_name A locals
               | _ => (locals, pending)
               end in
             finally_return locals) = Raise UnboundLocalError
        | _, _ =>
            ∃ md,
              (metadata ← getattr_series_metadata experiment series_name;
               let '(locals, pending) := try_states metadata A in
               let '(locals, pending) :=
                 match pending with
                 | Some KeyError =>
                     except_KeyError runner experiment series_name A locals
                 | _ => (locals, pending)
                 end in
               finally_return locals) = Ok md
        end
    | None =>
        (metadata ← getattr_series_metadata experiment series_name;
         let '(locals, pending) := try_states metadata A in
         let '(locals, pending) :=
           match pending with
           | Some KeyError =>
               except_KeyError runner experiment series_name A locals
           | _ => (locals, pending)
           end in
         finally_return locals) = Raise AttributeError
    end) as Hblock.
  { intros A. unfold getattr_series_metadata.
    destruct (Experiment.series_metadata experiment !! series_name) as [metadata|];
      [|done].
    cbn [mbind result_bind].
    pose proof (metadata_block_outcome series_name runner experiment metadata A)
      as Hout.
    destruct (try_states metadata A) as [locals pending].
    destruct (match pending with
              | Some KeyError =>
                  except_KeyError runner experiment series_name A locals
              | _ => (locals, pending)
              end) as [locals' pending'].
    destruct Hout as [Hok Hraise].
    destruct (metadata !! "states") as [states|].
    - apply Hok. left. eauto.
    - destruct (first_snapshot_cells series_name experiment) as [|x l].
      + by apply Hraise.
      + apply Hok. by right. }
  destruct (parameters _ !! "agent_types") as [[|x l]|]; cbn [mbind result_bind];
    [done|apply Hblock..].
Qed.

Ltac outcome_cases series_name runner :=
  generalize (get_series_metadata_outcome series_name runner);
  destruct (experiments runner) as [|experiment0 rest] eqn:Hexperiments;
  [|destruct (parameters (experiment_parameters_set runner) !! "agent_types")
      as [[|a0 entry]|] eqn:Hentry;
    [|destruct (Experiment.series_metadata experiment0 !! series_name)
        as [metadata0|] eqn:Hmetadata;
      [destruct (metadata0 !! "states") as [states0|] eqn:Hstates;
       destruct (first_snapshot_cells series_name experiment0)
         as [|c0 cells0] eqn:Hcells|]..]];
  first [intros -> | intros [? ->]].



(** X2. [get_series_metadata] raises [IndexError] exactly when the
    collection has no experiment, and then [show_up] raises it too. *)
Theorem no_experiment_raises_IndexError (series_name : string) (runner : Runner)
    (plot_title : string) (height : option Z) (leyend : string)
    (attributes_to_consider : option (list string)) (colorscale : string) :
  (get_series_metadata series_name runner = Raise IndexError
   ↔ experiments runner = [])
  ∧ (experiments runner = [] →
     show_up series_name runner plot_title height leyend attributes_to_consider
             colorscale = Raise IndexError).
Proof.
  split.
  - outcome_cases series_name runner; done.
  - intros Hempty. rewrite show_up_factors.
    pose proof (get_series_metadata_outcome series_name runner) as Hout.
    rewrite Hempty in Hout. by rewrite Hout.
Qed.

(** X3. [get_series_metadata] raises [ValueError] exactly when there is
    an experiment and the "agent_types" entry of the parameter set is an
    empty list: the [max] of the entry fails and only [KeyError] is
    caught. *)
Theorem empty_agent_types_raises_ValueError (series_name : string) (runner : Runner) :
  get_series_metadata series_name runner = Raise ValueError
  ↔ experiments runner ≠ []
    ∧ parameters (experiment_parameters_set runner) !! "agent_types" = Some [].
Proof. outcome_cases series_name runner; split; try done; by intros []. Qed.

(** X4. [get_series_metadata] raises [AttributeError] exactly when
    [max_agent_types] resolves and the first experiment has no metadata
    attribute for the series. *)
Theorem missing_metadata_raises_AttributeError (series_name : string)
    (runner : Runner) :
  get_series_metadata series_name runner = Raise AttributeError
  ↔ ∃ experiment,
      experiments runner !! 0%nat = Some experiment
      ∧ parameters (experiment_parameters_set runner) !! "agent_types" ≠ Some []
      ∧ Experiment.series_metadata experiment !! series_name = None.
Proof.
  outcome_cases series_name runner;
    (split; [intros ?; simplify_eq; by eexists
            |intros (?&?&?&?); by simplify_eq/=]).
Qed.


(** X6. [get_series_metadata] never raises [KeyError] (a missing key
    selects a fallback, or is dropped by the [finally] clause) and never
    [ZeroDivisionError] (with [max_agent_types] zero there is no tick to
    label). *)
Theorem get_series_metadata_never_KeyError (series_name : string) (runner : Runner) :
  get_series_metadata series_name runner ≠ Raise KeyError
  ∧ get_series_metadata series_name runner ≠ Raise ZeroDivisionError.
Proof. outcome_cases series_name runner; done. Qed.

End Outcome.

(** ** The labels of the metadata, tick by tick *)

Section Labels.
Context `{!Runtime}.

Lemma setitem_fresh {V} (d : dict V) (k : num) (v : V) :
  (∀ k' v', (k', v') ∈ d → num_eqb k' k = false) →
  setitem d k v = d ++ [(k, v)].
Proof.
  induction d as [|[k0 v0] d IH]; intros Hfresh; simpl; [done|].
  rewrite (Hfresh k0 v0) by apply list_elem_of_here.
  rewrite IH; [done|]. intros k' v' ?. apply (Hfresh k' v').
  by apply list_elem_of_further.
Qed.

(** A comprehension over pairwise different keys appends one entry per
    element, in order. *)
Lemma dict_comprehension_from_distinct {A V} (key : A → num) (val : A → result V)
    (label : A → V) (l : list A) (d : dict V) :
  (∀ a, a ∈ l → val a = Ok (label a)) →
  (∀ i j a b, l !! i = Some a → l !! j = Some b → i ≠ j →
     num_eqb (key a) (key b) = false) →
  (∀ k' v' a, (k', v') ∈ d → a ∈ l → num_eqb k' (key a) = false) →
  dict_comprehension_from d key val l = Ok (d ++ ((λ a, (key a, label a)) <$> l)).
Proof.
  revert d. induction l as [|a l IH]; intros d Hval Hkeys Hfresh; simpl.
  - by rewrite app_nil_r.
  - rewrite (Hval a) by apply list_elem_of_here. simpl.
    rewrite setitem_fresh.
    + rewrite IH.
      * by rewrite <- app_assoc.
      * intros a' ?. apply Hval. by apply list_elem_of_further.
      * intros i j a1 a2 Hi Hj Hij. apply (Hkeys (S i) (S j)); [done..|lia].
      * intros k' v' a' [Hd|Hnew%list_elem_of_singleton]%elem_of_app
          (j & Hj)%list_elem_of_lookup_1.
        -- apply (Hfresh k' v'); [done|]. eapply list_elem_of_further.
           by eapply list_elem_of_lookup_2.
        -- injection Hnew as -> ->. by apply (Hkeys 0%nat (S j)).
    + intros k' v' Hd. apply (Hfresh k' v'); [done|apply list_elem_of_here].
Qed.

Lemma dict_comprehension_distinct {A V} (key : A → num) (val : A → result V)
    (label : A → V) (l : list A) :
  (∀ a, a ∈ l → val a = Ok (label a)) →
  (∀ i j a b, l !! i = Some a → l !! j = Some b → i ≠ j →
     num_eqb (key a) (key b) = false) →
  dict_comprehension key val l = Ok ((λ a, (key a, label a)) <$> l).
Proof.
  intros Hval Hkeys. unfold dict_comprehension.
  rewrite (dict_comprehension_from_distinct key val label l []); [done..|].
  by intros k' v' a ?%elem_of_nil.
Qed.

Lemma Int_keys_distinct (m n : Z) (i j : nat) (a b : Z) :
  seqZ m n !! i = Some a → seqZ m n !! j = Some b → i ≠ j →
  num_eqb (Int a) (Int b) = false.
Proof.
  intros Hi Hj Hij. apply not_true_is_false. intros ->%num_eqb_Int.
  apply Hij. eapply (NoDup_lookup (seqZ m n)); [apply NoDup_seqZ|done..].
Qed.

(** X7. When the tick values are integers, as in the per-state branch
    and the agent-type branch, the label dict of the metadata has one
    entry per tick value, in the order of the tick values and keyed by
    them: no two ticks share a key. *)
Theorem labelalias_keys_are_tickvals (series_name : string) (runner : Runner)
    (md : SeriesMetadata) :
  get_series_metadata series_name runner = Ok md →
  (∀ t, t ∈ md_tickvals md → ∃ i : Z, t = Int i) →
  (md_labelalias md).*1 = md_tickvals md.
Proof.
  unfold get_series_metadata.
  intros (experiment & Hexp & (A & _ & (metadata & _ & Hblock)%bind_Ok)%bind_Ok)%bind_Ok.
  revert Hblock. unfold try_states, getitem_dict.
  destruct (metadata !! "states") as [states|].
  - set (label := λ i, match state_label states A i with Ok s => s | Raise _ => "" end).
    rewrite (dict_comprehension_distinct Int (state_label states A) label).
    + intros [= <-] _. cbn [md_tickvals md_labelalias].
      by rewrite <- list_fmap_compose.
    + intros i Hi%elem_of_seqZ. unfold label.
      destruct (state_label_Ok states A i) as (state & _ & ->); [lia|done].
    + apply Int_keys_distinct.
  - unfold except_KeyError, getitem_dict.
    destruct (Experiment.series experiment !! series_name) as [s|]; [|done].
    cbn [mbind result_bind].
    destruct (getitem_list s 0) as [snapshot|]; [|done]. cbn [mbind result_bind].
    destruct (sum_lists snapshot) as [|x l]; [done|].
    cbn [Py.min Py.max mbind result_bind mret result_ret].
    destruct (_ >? A).
    + destruct (float_labels_Ok (inject_Z (foldl Z.min x l))
                  (inject_Z (foldl Z.max x l + 1))
                  (8 * length (experiments runner))) as (d & -> & _).
      intros [= <-]. cbn [md_tickvals md_labelalias]. intros Hint.
      destruct (experiments runner) as [|e es] eqn:Hexps; [done|].
      destruct (linspace_lookup (inject_Z (foldl Z.min x l))
                  (inject_Z (foldl Z.max x l + 1))
                  (8 * length (e :: es)) 0) as (q & Hq & _).
      { cbn [length]. lia. }
      destruct (Hint (Float q)) as [i [=]].
      apply list_elem_of_fmap. exists q. split; [done|].
      by eapply list_elem_of_lookup_2.
    + rewrite (dict_comprehension_distinct Int (λ i, Ok (pretty i)) pretty);
        [|done|apply Int_keys_distinct].
      intros [= <-] _. cbn [md_tickvals md_labelalias].
      by rewrite <- list_fmap_compose.
Qed.

Lemma getitem_list_0_eq {A} (l : list A) :
  getitem_list l 0
  = match l !! 0%nat with Some a => Ok a | None => Raise IndexError end.
Proof. done. Qed.

(** X8. The metadata is read off the first experiment alone: two
    collections with the same first experiment, the same number of
    experiments and the same "agent_types" entry get the same metadata
    (or the same exception), whatever their other experiments hold. *)
Theorem metadata_reads_first_experiment_only (series_name : string)
    (runner1 runner2 : Runner) :
  experiments runner1 !! 0%nat = experiments runner2 !! 0%nat →
  length (experiments runner1) = length (experiments runner2) →
  parameters (experiment_parameters_set runner1) !! "agent_types"
  = parameters (experiment_parameters_set runner2) !! "agent_types" →
  get_series_metadata series_name runner1 = get_series_metadata series_name runner2.
Proof.
  intros Hfirst Hlen Hentry. unfold get_series_metadata.
  rewrite !getitem_list_0_eq, Hfirst.
  destruct (experiments runner2 !! 0%nat) as [experiment|]; [|done].
  cbn [mbind result_bind]. rewrite !resolve_max_agent_types_eq, Hentry.
  destruct (match parameters _ !! "agent_types" with
            | Some [] => Raise ValueError
            | Some (x :: l) => Ok (foldl Z.max x l)
            | None => Ok (Experiment.agent_types experiment)
            end) as [A|]; [|done].
  cbn [mbind result_bind].
  destruct (getattr_series_metadata experiment series_name) as [metadata|]; [|done].
  cbn [mbind result_bind].
  destruct (try_states metadata A) as [locals [[]|]]; try done.
  unfold except_KeyError. by rewrite Hlen.
Qed.

End Labels.

(** ** Rows, traces and axes of the grid *)

Section Grid.
Context `{!Runtime}.

Lemma getitem_list_head {A} (l : list A) (a : A) :
  getitem_list l 0 = Ok a → head l = Some a.
Proof. intros Ha%getitem_list_0. by destruct l; simplify_eq/=. Qed.

Lemma getitem_list_last {A} (l : list A) (a : A) :
  getitem_list l (-1) = Ok a → last l = Some a.
Proof.
  unfold getitem_list. cbn [Z.ltb Z.compare]. case_match eqn:Hneg; [done|].
  apply Z.ltb_ge in Hneg. unfold len in *.
  destruct (l !! _) as [a'|] eqn:Hl; [|done]. intros [= <-].
  rewrite last_lookup, <- Hl. f_equal. lia.
Qed.

(** X9. [process_series] builds one row per experiment, in order: the
    row of the [i]-th experiment (from 0) has index [i + 1], the first
    and the last snapshot of that experiment's series, the subplot titles
    "t_0" and "t_" with the last time step of that series, and the tick
    values and labels of the one metadata resolved for the collection. *)
Theorem one_row_per_experiment (runner : Runner) (series_name : string)
    (params : gset string) (rows : list Row) :
  process_series runner series_name params = Ok rows →
  length rows = length (experiments runner)
  ∧ ∀ (i : nat) (row : Row), rows !! i = Some row →
      ∃ experiment s md,
        experiments runner !! i = Some experiment
        ∧ Experiment.series experiment !! series_name = Some s
        ∧ index row = Z.of_nat i + 1
        ∧ head s = Some (first_lattice row)
        ∧ last s = Some (last_lattice row)
        ∧ subplot_titles row = ["t_0"; "t_" +:+ pretty (len s - 1)]
        ∧ get_series_metadata series_name runner = Ok md
        ∧ tickvals row = md_tickvals md
        ∧ labelalias row = md_labelalias md.
Proof.
  unfold process_series. intros (md & Hmd & Hrows)%bind_Ok.
  destruct (rows_of_lookup _ _ _ _ _ Hrows) as [Hlen Hlookup].
  split; [done|]. intros i row Hrow.
  destruct (Hlookup i row Hrow) as (experiment & He & Hrun%row_of_Ok).
  destruct Hrun as (s & first & last & segments & Hs & Hfirst & Hlast & _ & ->).
  exists experiment, s, md. cbn [index first_lattice last_lattice subplot_titles
                                 tickvals labelalias].
  split_and!; try done; [lia|by apply getitem_list_head|by apply getitem_list_last].
Qed.

(** X10. [calculate_global_min_max] tolerates empty lattices: it fails,
    with [ValueError], exactly when no first or last lattice of any row
    has a cell, and it raises nothing else. *)
Theorem global_range_fails_without_cells (rows : list Row) :
  (calculate_global_min_max rows = Raise ValueError
   ↔ ∀ v, ¬ snapshot_value rows v)
  ∧ (∀ e, calculate_global_min_max rows = Raise e → e = ValueError).
Proof.
  unfold calculate_global_min_max.
  destruct (all_values rows) as [|x l] eqn:Hvalues; simpl.
  - split; [|by intros e [= <-]]. split; [|done].
    intros _ v Hv%elem_of_all_values. rewrite Hvalues in Hv.
    by apply elem_of_nil in Hv.
  - split; [|done]. split; [done|]. intros Hnone. destruct (Hnone x).
    apply elem_of_all_values. rewrite Hvalues. apply list_elem_of_here.
Qed.

Lemma make_figure_grid (rows : list Row) (figure : go.Figure) :
  make_figure rows = Ok figure → go.subplot_grid figure = (len rows, 2).
Proof.
  unfold make_figure.
  intros (titles & _ & (figure0 & Hsub & [= <-])%bind_Ok)%bind_Ok.
  unfold go.make_subplots in Hsub. case_match; [done|]. by injection Hsub as <-.
Qed.

Lemma configure_figure_grid (figure0 : go.Figure) (runner : Runner)
    (plot_title leyend : string) (height : option Z) (rows : list Row)
    (zmin zmax : Z) (colorscale : string) (figure1 : go.Figure) :
  configure_figure figure0 runner plot_title leyend height rows zmin zmax colorscale
    = Ok figure1 →
  go.subplot_grid figure1 = go.subplot_grid figure0.
Proof.
  unfold configure_figure.
  by intros (experiment & _ & (row0 & _ & (ticks & _ & [= <-])%bind_Ok)%bind_Ok)%bind_Ok.
Qed.

Lemma add_trace_exact (z : Lattice) (coloraxis hovertemplate : string)
    (row col : Z) (figure figure' : go.Figure) (n c : Z) :
  go.subplot_grid figure = (n, c) →
  go.add_trace z coloraxis hovertemplate row col figure = Ok figure' →
  go.subplot_grid figure' = (n, c)
  ∧ go.data figure'
    = go.data figure ++
      [{| go.z := z; go.hm_coloraxis := coloraxis; go.hovertemplate := hovertemplate;
          go.xaxis := (row - 1) * c + col; go.yaxis := (row - 1) * c + col |}].
Proof.
  unfold go.add_trace. intros Hgrid. rewrite Hgrid.
  destruct (_ && _); [|done]. by intros [= <-].
Qed.

Lemma configure_heatmaps_traces (figure figure' : go.Figure) (rows : list Row)
    (n : Z) :
  go.subplot_grid figure = (n, 2) →
  configure_heatmaps figure rows = Ok figure' →
  go.data figure' = go.data figure ++ (rows ≫= row_traces).
Proof.
  unfold configure_heatmaps. revert figure.
  induction rows as [|row rows IH]; intros figure Hgrid; simpl.
  - intros [= <-]. by rewrite app_nil_r.
  - intros (fig2 & (fig1 & Hfirst & (fig2' & Hlast & [= ->])%bind_Ok)%bind_Ok
            & Hrest)%bind_Ok.
    apply (add_trace_exact _ _ _ _ _ _ _ _ _ Hgrid) in Hfirst as [Hgrid1 Hdata1].
    apply (add_trace_exact _ _ _ _ _ _ _ _ _ Hgrid1) in Hlast as [Hgrid2 Hdata2].
    apply IH in Hrest; [|done]. rewrite Hrest, Hdata2, Hdata1.
    by rewrite <- !app_assoc.
Qed.

(** X11. The traces of a rendered figure are, row after row, the heatmap
    of the row's first lattice on the axes of grid cell (index, 1) and the
    heatmap of its last lattice on the axes of cell (index, 2), each on
    the shared colour axis and with the hover text that swaps x and y;
    there is no other trace. *)
Theorem heatmaps_fill_the_grid_in_order (series_name : string) (runner : Runner)
    (plot_title : string) (height : option Z) (leyend : string)
    (attributes_to_consider : option (list string)) (colorscale : string)
    (figure : go.Figure) :
  show_up series_name runner plot_title height leyend attributes_to_consider colorscale
    = Ok figure →
  ∃ rows,
    process_series runner series_name (params_set runner attributes_to_consider)
      = Ok rows
    ∧ go.data figure = (rows ≫= row_traces)
    ∧ length (go.data figure) = (2 * length (experiments runner))%nat.
Proof.
  intros (metadata & rows & zmin & zmax & figure0 & figure1 & Hmd & Hrows & Hrange
          & Hmake & Hconf & Hheat)%show_up_Ok.
  destruct (configure_figure_Ok _ _ _ _ _ _ _ _ _ _ Hconf)
    as (_ & _ & _ & _ & _ & _ & _ & Hdata & _).
  destruct (make_figure_Ok _ _ Hmake) as (_ & _ & _ & Hdata0).
  pose proof (make_figure_grid _ _ Hmake) as Hgrid0.
  pose proof (configure_figure_grid _ _ _ _ _ _ _ _ _ _ Hconf) as Hgrid1.
  rewrite Hgrid0 in Hgrid1.
  pose proof (configure_heatmaps_traces _ _ _ _ Hgrid1 Hheat) as Htraces.
  rewrite Hdata, Hdata0 in Htraces. simpl in Htraces.
  destruct (rows_of_lookup _ _ _ _ _ Hrows) as [Hlen _].
  exists rows. split; [unfold process_series; by rewrite Hmd|]. split; [done|].
  rewrite Htraces, <- Hlen. clear. induction rows as [|row rows IH]; [done|].
  rewrite bind_cons, length_app, IH. simpl. lia.
Qed.

Lemma set_scaleanchor_lookup (n : Z) (anchor : string) (axes : gmap Z go.YAxis)
    (i : Z) :
  i ≠ n → go.set_scaleanchor n anchor axes !! i = axes !! i.
Proof. intros Hne. unfold go.set_scaleanchor. by rewrite lookup_insert_ne. Qed.

Lemma set_scaleanchor_anchor (n : Z) (anchor : string) (axes : gmap Z go.YAxis) :
  ∃ axis, go.set_scaleanchor n anchor axes !! n = Some axis
    ∧ go.y_scaleanchor axis = Some anchor.
Proof. unfold go.set_scaleanchor. rewrite lookup_insert_eq. eauto. Qed.

Lemma scaleanchors_anchor (anchor : Z → string) (l : list Z)
    (axes : gmap Z go.YAxis) (i : Z) :
  i ∈ l ∨ (∃ axis, axes !! i = Some axis ∧ go.y_scaleanchor axis = Some (anchor i)) →
  ∃ axis, foldl (λ axes j, go.set_scaleanchor j (anchor j) axes) axes l !! i = Some axis
    ∧ go.y_scaleanchor axis = Some (anchor i).
Proof.
  revert axes. induction l as [|j l IH]; intros axes Hi; simpl.
  - by destruct Hi as [?%elem_of_nil|?].
  - apply IH. destruct (decide (i = j)) as [->|Hne].
    + right. apply set_scaleanchor_anchor.
    + destruct Hi as [[->|Hl]%elem_of_cons|Haxis]; [done|by left|right].
      by rewrite set_scaleanchor_lookup.
Qed.

Lemma scaleanchors_other (anchor : Z → string) (l : list Z)
    (axes : gmap Z go.YAxis) (i : Z) :
  i ∉ l →
  foldl (λ axes j, go.set_scaleanchor j (anchor j) axes) axes l !! i = axes !! i.
Proof.
  revert axes. induction l as [|j l IH]; intros axes Hi; simpl; [done|].
  apply not_elem_of_cons in Hi as [Hne Hl].
  by rewrite IH, set_scaleanchor_lookup.
Qed.

(** X12. In every rendered figure each y axis is scale-anchored to the x
    axis of its own subplot (square cells): the first to "x", the [i]-th
    to "x" followed by [i], for every subplot of the grid. *)
Theorem y_axes_anchored_to_own_x_axis (series_name : string) (runner : Runner)
    (plot_title : string) (height : option Z) (leyend : string)
    (attributes_to_consider : option (list string)) (colorscale : string)
    (figure : go.Figure) :
  show_up series_name runner plot_title height leyend attributes_to_consider colorscale
    = Ok figure →
  ∀ i, 1 ≤ i ≤ 2 * len (experiments runner) →
    ∃ yaxis, go.yaxes figure !! i = Some yaxis
      ∧ go.y_scaleanchor yaxis
        = Some (if decide (i = 1) then "x" else "x" +:+ pretty i).
Proof.
  intros (metadata & rows & zmin & zmax & figure0 & figure1 & Hmd & Hrows & Hrange
          & Hmake & Hconf & Hheat)%show_up_Ok i Hi.
  destruct (configure_figure_Ok _ _ _ _ _ _ _ _ _ _ Hconf)
    as (_ & _ & _ & _ & _ & _ & Hy & _).
  destruct (configure_heatmaps_Ok _ _ _ Hheat) as [(_ & _ & _ & Hyaxes & _) _].
  destruct (rows_of_lookup _ _ _ _ _ Hrows) as [Hlen _].
  rewrite Hyaxes, Hy. destruct (decide (i = 1)) as [->|Hne].
  - rewrite scaleanchors_other; [apply set_scaleanchor_anchor|].
    unfold range_from. rewrite elem_of_seqZ. lia.
  - apply (scaleanchors_anchor (λ j, "x" +:+ pretty j)). left.
    unfold range_from. rewrite elem_of_seqZ. unfold len in *. lia.
Qed.

End Grid.

(** ** A title parameter that an experiment lacks *)

Section MissingAttribute.
Context `{!Runtime}.

Lemma comprehension_Raise {A B} (f : A → result B) (l : list A) (e : exn) :
  (∀ a, a ∈ l → (∃ b, f a = Ok b) ∨ f a = Raise e) →
  (∃ a, a ∈ l ∧ f a = Raise e) →
  comprehension f l = Raise e.
Proof.
  induction l as [|a l IH]; intros Hall (a' & Hin & Hraise); simpl.
  - by apply elem_of_nil in Hin.
  - destruct (Hall a) as [[b Hb]|Hb]; [apply list_elem_of_here| |by rewrite Hb].
    rewrite Hb. simpl. rewrite IH; [done| |].
    + intros a0 ?. apply Hall. by apply list_elem_of_further.
    + apply elem_of_cons in Hin as [->|Hin]; [congruence|eauto].
Qed.

Lemma comprehension_Ok_or_Raise {A B} (f : A → result B) (l : list A) (e : exn) :
  (∀ a, a ∈ l → (∃ b, f a = Ok b) ∨ f a = Raise e) →
  (∃ bs, comprehension f l = Ok bs) ∨ comprehension f l = Raise e.
Proof.
  induction l as [|a l IH]; intros Hall; simpl; [eauto|].
  destruct (Hall a) as [[b ->]| ->]; [apply list_elem_of_here| |by right]. simpl.
  destruct IH as [[bs ->]| ->]; simpl; eauto.
  intros a0 ?. apply Hall. by apply list_elem_of_further.
Qed.

(** X14. When the metadata resolves and every experiment has the series
    with at least one snapshot, but some experiment lacks an attribute
    named among the title parameters, [show_up] raises
    [AttributeError]. *)
Theorem missing_title_attribute_raises_AttributeError (series_name : string)
    (runner : Runner) (plot_title : string) (height : option Z) (leyend : string)
    (attributes_to_consider : option (list string)) (colorscale : string)
    (md : SeriesMetadata) :
  get_series_metadata series_name runner = Ok md →
  (∀ experiment, experiment ∈ experiments runner →
     ∃ s, Experiment.series experiment !! series_name = Some s ∧ s ≠ []) →
  (∃ experiment p,
     experiment ∈ experiments runner
     ∧ p ∈ params_set runner attributes_to_consider
     ∧ Experiment.attributes experiment !! p = None) →
  show_up series_name runner plot_title height leyend attributes_to_consider colorscale
    = Raise AttributeError.
Proof.
  intros Hmd Hseries (bad & p & Hbad & Hp & Hmissing).
  rewrite show_up_factors, Hmd. cbn [mbind result_bind]. unfold show_up_with.
  assert (rows_of runner series_name (params_set runner attributes_to_consider) md
          = Raise AttributeError) as ->; [|done].
  assert (∀ experiment,
    (∀ a, a ∈ set_iter (params_set runner attributes_to_consider) →
       (∃ b, (v ← getattr experiment a; Ok (a +:+ "=" +:+ str v)) = Ok b)
       ∨ (v ← getattr experiment a; Ok (a +:+ "=" +:+ str v)) = Raise AttributeError))
    as Hsegment.
  { intros experiment a _. unfold getattr.
    destruct (Experiment.attributes experiment !! a); simpl; eauto. }
  assert (∀ i experiment, experiment ∈ experiments runner →
    (∃ row, row_of series_name (params_set runner attributes_to_consider) md i
              experiment = Ok row)
    ∨ row_of series_name (params_set runner attributes_to_consider) md i experiment
      = Raise AttributeError) as Hrow.
  { intros i experiment Hin. destruct (Hseries experiment Hin) as (s & Hs & Hne).
    unfold row_of, getitem_dict. rewrite Hs. cbn [mbind result_bind].
    destruct s as [|first s]; [done|].
    rewrite (getitem_list_nonneg _ 0 first) by done. cbn [mbind result_bind].
    destruct (lookup_lt_is_Some_2 (first :: s) (Z.to_nat (len (first :: s) + -1)))
      as [last Hlast]; [unfold len; cbn [length]; lia|].
    assert (getitem_list (first :: s) (-1) = Ok last) as ->.
    { unfold getitem_list. cbn [Z.ltb Z.compare].
      assert ((len (first :: s) + -1 <? 0) = false) as ->
        by (apply Z.ltb_ge; unfold len; cbn [length]; lia).
      by rewrite Hlast. }
    cbn [mbind result_bind].
    destruct (comprehension_Ok_or_Raise _ _ AttributeError (Hsegment experiment))
      as [[segments ->]| ->]; simpl; eauto. }
  unfold rows_of. apply comprehension_Raise.
  - intros [i experiment] [Hin _]%elem_of_enumerate. by apply Hrow.
  - apply list_elem_of_lookup_1 in Hbad as [n Hn].
    exists (1 + Z.of_nat n, bad). split.
    + apply list_elem_of_lookup. exists n. by rewrite enumerate_lookup, Hn.
    + destruct (Hseries bad) as (s & Hs & Hne); [by eapply list_elem_of_lookup_2|].
      unfold row_of, getitem_dict. rewrite Hs. cbn [mbind result_bind].
      destruct s as [|first s]; [done|].
      rewrite (getitem_list_nonneg _ 0 first) by done. cbn [mbind result_bind].
      destruct (lookup_lt_is_Some_2 (first :: s) (Z.to_nat (len (first :: s) + -1)))
        as [last Hlast]; [unfold len; cbn [length]; lia|].
      assert (getitem_list (first :: s) (-1) = Ok last) as ->.
      { unfold getitem_list. cbn [Z.ltb Z.compare].
        assert ((len (first :: s) + -1 <? 0) = false) as ->
          by (apply Z.ltb_ge; unfold len; cbn [length]; lia).
        by rewrite Hlast. }
      cbn [mbind result_bind].
      rewrite (comprehension_Raise _ _ AttributeError); [done|apply Hsegment|].
      exists p. split.
      * by rewrite set_iter_perm, elem_of_elements.
      * unfold getattr. by rewrite Hmissing.
Qed.

End MissingAttribute.

(** ** Concrete runs *)

Section Runs.
#[local] Existing Instance sample_runtime.

Lemma global_range_is_shared_color_domain_run :
  ∃ figure,
    show_up "lattice" states_runner "Final grid" None "" None "Viridis" = Ok figure
    ∧ ∃ rows zmin zmax coloraxis,
        process_series states_runner "lattice" (params_set states_runner None) = Ok rows
        ∧ calculate_global_min_max rows = Ok (zmin, zmax)
        ∧ snapshot_value rows zmin
        ∧ snapshot_value rows zmax
        ∧ (∀ v, snapshot_value rows v → zmin ≤ v ≤ zmax)
        ∧ go.coloraxis (go.layout figure) = Some coloraxis
        ∧ go.cmin coloraxis = zmin
        ∧ go.cmax coloraxis = zmax
        ∧ go.z <$> go.data figure = (row ← rows; [first_lattice row; last_lattice row])
        ∧ Forall (λ trace, go.hm_coloraxis trace = "coloraxis") (go.data figure).
Proof.
  eexists. split; [vm_compute; reflexivity|].
  apply (global_range_is_shared_color_domain
           "lattice" states_runner "Final grid" None "" None "Viridis").
  vm_compute. reflexivity.
Defined.

Lemma per_state_ticks_and_labels_run :
  ∃ md, get_series_metadata "lattice" states_runner = Ok md
    ∧ md_tickvals md = Int <$> seqZ 0 (3 * len ["idle"; "busy"])
    ∧ (0 ≤ 3 → len (md_tickvals md) = 3 * len ["idle"; "busy"])
    ∧ ∀ i, 0 ≤ i < 3 * len ["idle"; "busy"] →
        ∃ state, getitem_list ["idle"; "busy"] (i `div` 3) = Ok state
          ∧ getitem (md_labelalias md) (Int i) = Ok (pretty (i `mod` 3) +:+ " " +:+ state).
Proof.
  apply (per_state_ticks_and_labels "lattice" states_runner
           (sample_experiment 1 {[ "states" := ["idle"; "busy"] ]} [[5; 6]; [7; 8]])
           {[ "states" := ["idle"; "busy"] ]} ["idle"; "busy"] 3);
    vm_compute; reflexivity.
Defined.


Lemma colorbar_ticks_match_metadata_count_run :
  ∃ figure,
    show_up "lattice" seven_states_runner "Final grid" None "state" None "Viridis"
      = Ok figure
    ∧ ∃ metadata rows zmin zmax coloraxis start stop,
        get_series_metadata "lattice" seven_states_runner = Ok metadata
        ∧ process_series seven_states_runner "lattice"
            (params_set seven_states_runner None) = Ok rows
        ∧ calculate_global_min_max rows = Ok (zmin, zmax)
        ∧ go.coloraxis (go.layout figure) = Some coloraxis
        ∧ length (go.ticktext (go.colorbar coloraxis)) = length (md_tickvals metadata)
        ∧ length (go.cb_tickvals (go.colorbar coloraxis)) = length (md_tickvals metadata)
        ∧ F64.of_int zmin = Ok start
        ∧ F64.of_int zmax = Ok stop
        ∧ go.cb_tickvals (go.colorbar coloraxis)
          = F64.linspace start stop (length (md_tickvals metadata))
        ∧ ((2 ≤ length (md_tickvals metadata))%nat →
           last (go.cb_tickvals (go.colorbar coloraxis)) = Some stop)
        ∧ ∀ (i : nat) (val : F64.float),
            go.cb_tickvals (go.colorbar coloraxis) !! i = Some val →
            go.ticktext (go.colorbar coloraxis) !! i = Some (F64.format_1f val)
            ∧ shows_one_decimal val (F64.format_1f val).
Proof.
  eexists. split; [vm_compute; reflexivity|].
  apply (colorbar_ticks_match_metadata_count
           "lattice" seven_states_runner "Final grid" None "state" None "Viridis").
  vm_compute. reflexivity.
Defined.

(** The 21 tick labels of [seven_states_runner] over the range 0..9, as
    Python prints them: the step 9/20 is the float64 nearest to 0.45, so
    the second label is "0.5" and the eighth "3.1". *)
Example seven_states_tick_labels :
  ∃ figure coloraxis,
    show_up "lattice" seven_states_runner "Final grid" None "state" None "Viridis"
      = Ok figure
    ∧ go.coloraxis (go.layout figure) = Some coloraxis
    ∧ go.ticktext (go.colorbar coloraxis)
      = ["0.0"; "0.5"; "0.9"; "1.4"; "1.8"; "2.2"; "2.7"; "3.1"; "3.6"; "4.0"; "4.5";
         "5.0"; "5.4"; "5.9"; "6.3"; "6.8"; "7.2"; "7.7"; "8.1"; "8.6"; "9.0"].
Proof.
  eexists _, _. split; [vm_compute; reflexivity|].
  split; vm_compute; reflexivity.
Qed.

(** An integer bound with no float64 of its own is rounded before it is
    printed, and one beyond the float64 range raises. *)
Example large_bounds_round_or_overflow :
  match F64.linspace_int (2 ^ 53 + 1) (2 ^ 53 + 3) 2 with
  | Ok ticks => F64.format_1f <$> ticks
  | Raise _ => []
  end = ["9007199254740992.0"; "9007199254740996.0"]
  ∧ F64.linspace_int 0 (2 ^ 1024) 2 = Raise OverflowError
  ∧ F64.of_int (2 ^ 1024 - 2 ^ 970) = Raise OverflowError
  ∧ match F64.of_int (2 ^ 1024 - 2 ^ 970 - 1) with
    | Ok x => F64.format_1f x
    | Raise _ => "raised"
    end
    = "179769313486231570814527423731704356798070567525844996598917476803157260780028538760589558632766878171540458953514382464234321326889464182768467546703537516986049910576551282076245490090389328944075868508455133942304583236903222948165808559332123348274797826204144723168738177180919299881250404026184124858368.0".
Proof. vm_compute. repeat split. Qed.

(** The claim C5 as the specification words it fails: the explicit height
    0 is not the height of the figure. *)
Lemma explicit_height_zero_not_used :
  ∃ figure,
    show_up "lattice" states_runner "Final grid" (Some 0) "" None "Viridis" = Ok figure
    ∧ go.height (go.layout figure) = Some 600
    ∧ go.height (go.layout figure) ≠ Some 0.
Proof. eexists. split; [vm_compute; reflexivity|]. by split. Qed.

Lemma height_default_unless_nonzero_run :
  ∃ figure,
    show_up "lattice" states_runner "Final grid" (Some 450) "" None "Viridis" = Ok figure
    ∧ (Some 450 = None ∨ Some 450 = Some 0 →
         go.height (go.layout figure)
         = Some (Z.max 600 (300 * len (experiments states_runner))))
    ∧ (∀ h, Some 450 = Some h → h ≠ 0 → go.height (go.layout figure) = Some h).
Proof.
  eexists. split; [vm_compute; reflexivity|].
  apply (height_default_unless_nonzero
           "lattice" states_runner "Final grid" (Some 450) "" None "Viridis").
  vm_compute. reflexivity.
Defined.

Lemma row_title_one_segment_per_parameter_run :
  ∃ rows row,
    process_series states_runner "lattice"
      (params_set states_runner (Some ["rule"; "seed"; "rule"])) = Ok rows
    ∧ rows !! 1%nat = Some row
    ∧ ∃ experiment order values,
        experiments states_runner !! 1%nat = Some experiment
        ∧ NoDup order
        ∧ (∀ p, p ∈ order ↔ p ∈ default [] (Some ["rule"; "seed"; "rule"])
                             ∨ p ∈ parameters_to_vary
                                     (experiment_parameters_set states_runner))
        ∧ Forall2 (λ attribute v, getattr experiment attribute = Ok v) order values
        ∧ title row
          = Py.join "<br>" (zip_with (λ attribute v, attribute +:+ "=" +:+ str v)
                                     order values).
Proof.
  eexists _, _. split; [vm_compute; reflexivity|]. split; [reflexivity|].
  eapply (row_title_one_segment_per_parameter states_runner "lattice"
            (Some ["rule"; "seed"; "rule"]) _ 1%nat);
    vm_compute; reflexivity.
Defined.

Lemma axes_range_and_direction_run :
  ∃ figure,
    show_up "lattice" agent_types_runner "Final grid" None "" None "Viridis" = Ok figure
    ∧ ∃ experiment,
        getitem_list (experiments agent_types_runner) 0 = Ok experiment
        ∧ ∀ i, 1 ≤ i ≤ 2 * len (experiments agent_types_runner) →
            ∃ xaxis yaxis,
              go.xaxes figure !! i = Some xaxis
              ∧ go.x_range xaxis = Some (0, Experiment.length experiment - 1)
              ∧ go.yaxes figure !! i = Some yaxis
              ∧ go.y_autorange yaxis = Some go.AutorangeReversed.
Proof.
  eexists. split; [vm_compute; reflexivity|].
  apply (axes_range_and_direction
           "lattice" agent_types_runner "Final grid" None "" None "Viridis").
  vm_compute. reflexivity.
Defined.

Lemma figure_depends_on_tick_count_only_run :
  let metadata1 := {| md_tickvals := [Int 0; Int 1];
                      md_labelalias := [(Int 0, "0 idle"); (Int 1, "1 idle")] |} in
  let metadata2 := {| md_tickvals := [Float (1 # 2); Float 3];
                      md_labelalias := [] |} in
  length (md_tickvals metadata1) = length (md_tickvals metadata2)
  ∧ show_up_with metadata1 "lattice" states_runner "Final grid" None "" None "Viridis"
    = show_up_with metadata2 "lattice" states_runner "Final grid" None "" None "Viridis"
  ∧ (get_series_metadata "lattice" states_runner = Ok metadata1 →
     show_up "lattice" states_runner "Final grid" None "" None "Viridis"
     = show_up_with metadata2 "lattice" states_runner "Final grid" None "" None
                    "Viridis").
Proof.
  intros metadata1 metadata2. split; [reflexivity|].
  apply (figure_depends_on_tick_count_only metadata1 metadata2
           "lattice" states_runner "Final grid" None "" None "Viridis").
  reflexivity.
Defined.

End Runs.

Section MoreRuns.
#[local] Existing Instance sample_runtime.

Lemma labelalias_keys_are_tickvals_run :
  ∃ md, get_series_metadata "lattice" states_runner = Ok md
    ∧ (∀ t, t ∈ md_tickvals md → ∃ i : Z, t = Int i)
    ∧ (md_labelalias md).*1 = md_tickvals md.
Proof.
  eexists. split; [vm_compute; reflexivity|].
  assert (∀ t, t ∈ Int <$> [0; 1; 2; 3; 4; 5] → ∃ i : Z, t = Int i) as Hint.
  { intros t (i & -> & _)%list_elem_of_fmap. by exists i. }
  split; [exact Hint|].
  apply (labelalias_keys_are_tickvals "lattice" states_runner);
    [vm_compute; reflexivity|exact Hint].
Defined.

Lemma metadata_reads_first_experiment_only_run :
  experiments states_runner !! 0%nat = experiments other_states_runner !! 0%nat
  ∧ length (experiments states_runner) = length (experiments other_states_runner)
  ∧ parameters (experiment_parameters_set states_runner) !! "agent_types"
    = parameters (experiment_parameters_set other_states_runner) !! "agent_types"
  ∧ get_series_metadata "lattice" states_runner
    = get_series_metadata "lattice" other_states_runner.
Proof.
  split_and!; [reflexivity..|].
  apply (metadata_reads_first_experiment_only "lattice" states_runner
           other_states_runner); reflexivity.
Defined.

Lemma one_row_per_experiment_run :
  ∃ rows,
    process_series states_runner "lattice" {[ "seed" ]} = Ok rows
    ∧ length rows = length (experiments states_runner)
    ∧ ∀ (i : nat) (row : Row), rows !! i = Some row →
        ∃ experiment s md,
          experiments states_runner !! i = Some experiment
          ∧ Experiment.series experiment !! "lattice" = Some s
          ∧ index row = Z.of_nat i + 1
          ∧ head s = Some (first_lattice row)
          ∧ last s = Some (last_lattice row)
          ∧ subplot_titles row = ["t_0"; "t_" +:+ pretty (len s - 1)]
          ∧ get_series_metadata "lattice" states_runner = Ok md
          ∧ tickvals row = md_tickvals md
          ∧ labelalias row = md_labelalias md.
Proof.
  eexists. split; [vm_compute; reflexivity|].
  apply (one_row_per_experiment states_runner "lattice" {[ "seed" ]}).
  vm_compute. reflexivity.
Defined.

Lemma heatmaps_fill_the_grid_in_order_run :
  ∃ figure,
    show_up "lattice" states_runner "Final grid" None "" None "Viridis" = Ok figure
    ∧ ∃ rows,
        process_series states_runner "lattice" (params_set states_runner None) = Ok rows
        ∧ go.data figure = (rows ≫= row_traces)
        ∧ length (go.data figure) = (2 * length (experiments states_runner))%nat.
Proof.
  eexists. split; [vm_compute; reflexivity|].
  apply (heatmaps_fill_the_grid_in_order
           "lattice" states_runner "Final grid" None "" None "Viridis").
  vm_compute. reflexivity.
Defined.

Lemma y_axes_anchored_to_own_x_axis_run :
  ∃ figure,
    show_up "lattice" states_runner "Final grid" None "" None "Viridis" = Ok figure
    ∧ ∀ i, 1 ≤ i ≤ 2 * len (experiments states_runner) →
        ∃ yaxis, go.yaxes figure !! i = Some yaxis
          ∧ go.y_scaleanchor yaxis
            = Some (if decide (i = 1) then "x" else "x" +:+ pretty i).
Proof.
  eexists. split; [vm_compute; reflexivity|].
  apply (y_axes_anchored_to_own_x_axis
           "lattice" states_runner "Final grid" None "" None "Viridis").
  vm_compute. reflexivity.
Defined.

Lemma missing_title_attribute_raises_AttributeError_run :
  ∃ md, get_series_metadata "lattice" unseeded_runner = Ok md
    ∧ show_up "lattice" unseeded_runner "Final grid" None "" None "Viridis"
      = Raise AttributeError.
Proof.
  eexists. split; [vm_compute; reflexivity|].
  eapply (missing_title_attribute_raises_AttributeError "lattice" unseeded_runner).
  - vm_compute. reflexivity.
  - intros experiment Hin. unfold unseeded_runner in Hin. cbn [experiments] in Hin.
    apply elem_of_cons in Hin as [->|Hin];
      [|apply list_elem_of_singleton in Hin as ->]; eexists; split;
      (reflexivity || done).
  - eexists _, "seed". split_and!.
    + apply list_elem_of_further, list_elem_of_here.
    + unfold params_set. apply elem_of_union_r.
      change ("seed" ∈ ({[ "seed" ]} : gset string)). by apply elem_of_singleton.
    + reflexivity.
Defined.

Lemma rows_and_range_total_run :
  ∃ metadata,
    get_series_metadata "lattice" states_runner = Ok metadata
    ∧ preparable "lattice" states_runner (params_set states_runner None)
    ∧ ∃ rows zmin zmax,
        process_series states_runner "lattice" (params_set states_runner None)
          = Ok rows
        ∧ length rows = length (experiments states_runner)
        ∧ calculate_global_min_max rows = Ok (zmin, zmax)
        ∧ is_minimum zmin (all_values rows)
        ∧ is_maximum zmax (all_values rows).
Proof.
  assert (preparable "lattice" states_runner (params_set states_runner None))
    as Hpreparable.
  { split.
    - intros experiment Hin. unfold states_runner, sample_runner in Hin.
      cbn [experiments] in Hin.
      apply elem_of_cons in Hin as [->|Hin];
        [|apply list_elem_of_singleton in Hin as ->];
        (split; [eexists; split; (reflexivity || done)|]);
        intros p Hp; unfold params_set in Hp;
        apply elem_of_union in Hp as [Hp|Hp];
        [by apply elem_of_list_to_set, elem_of_nil in Hp| |
         by apply elem_of_list_to_set, elem_of_nil in Hp|];
        change (p ∈ ({[ "seed" ]} : gset string)) in Hp;
        apply elem_of_singleton in Hp as ->; by eexists.
    - eexists _, _, _, _, _. split_and!.
      + apply list_elem_of_here.
      + reflexivity.
      + left. reflexivity.
      + apply list_elem_of_here.
      + apply list_elem_of_here. }
  eexists. split; [vm_compute; reflexivity|].
  split; [exact Hpreparable|].
  eapply (rows_and_range_total "lattice" states_runner None);
    [vm_compute; reflexivity|exact Hpreparable].
Defined.

End MoreRuns.
